(** * The lateral QP formulation of [OsqpLateralQPOptimizer]

    A shallow embedding of
    [modules/planning/math/finite_element_qp/osqp_lateral_qp_optimizer.cc]:
    the kernel (objective) matrix, the affine constraint matrix with its
    bound vectors, the linear term, and the extraction of the primal
    solution into the optimizer's three output sequences.

    - [double] / [c_float] values are IEEE-754 binary64 numbers: Rocq's
      primitive [float], whose operations the kernel computes.
    - [int] values are integers of [Z].  Every index the code computes is
      at most [6 * N] for [N] stations, and the dense constraint matrix of
      [6N * 3N] doubles has to fit in memory, so the 32-bit range is never
      left and the wrap-around is not written out.
    - An [Eigen::MatrixXd] is the list of its rows.  [operator()] and the
      C array subscript are unchecked: a write outside the object is
      undefined behaviour.  The constraint construction records the
      first such write and ends there (see [out_of_bounds]), and the
      call ends as [Undefined].
    - The QP solver (OSQP), the dense-to-CSC conversion and the gflags are
      not part of the file: they are variables of the section. *)

From Stdlib Require Import ZArith Lia PrimFloat.
From stdpp Require Import base list.

Local Open Scope Z_scope.

(** ** Dense matrices *)

Module Eigen.

(** A matrix of [double]s: the list of its rows. *)
Abbreviation MatrixXd := (list (list float)).

(** [MatrixXd::Zero(rows, cols)]. *)
Definition Zero (rows cols : Z) : MatrixXd :=
  replicate (Z.to_nat rows) (replicate (Z.to_nat cols) 0%float).

(** [m.rows()]. *)
Definition rows (m : MatrixXd) : Z := Z.of_nat (length m).

(** Reading [m(row, col)]; [None] outside the matrix. *)
Definition coeff (m : MatrixXd) (row col : Z) : option float :=
  if (0 <=? row) && (0 <=? col)
  then m !! Z.to_nat row ≫= (.!! Z.to_nat col)
  else None.

Definition in_bounds (m : MatrixXd) (row col : Z) : bool :=
  match coeff m row col with Some _ => true | None => false end.

(** [m(row, col) = v] on a cell of the matrix.  Outside the matrix the
    C++ expression has undefined behaviour and [assign] has no meaning
    (it gives [m] back): the constraint construction tests [in_bounds]
    before it writes and ends otherwise (see [set_coeff]), and
    [CalculateKernel] writes cells of the diagonal of a square matrix
    only. *)
Definition assign (m : MatrixXd) (row col : Z) (v : float) : MatrixXd :=
  if in_bounds m row col
  then alter (<[Z.to_nat col := v]>) (Z.to_nat row) m
  else m.

End Eigen.

(** ** C arrays of [c_float]

    A variable-length array [c_float a[n]] starts uninitialised: a cell
    holds [None] until it is written. *)

Abbreviation c_array := (list (option float)).

Definition uninitialized (n : Z) : c_array := replicate (Z.to_nat n) None.

Definition array_in_bounds (a : c_array) (i : Z) : bool :=
  (0 <=? i) && (i <? Z.of_nat (length a)).

(** [a[i] = v] on a cell of the array.  Outside the array the C++
    expression has undefined behaviour and [array_store] has no meaning
    (it gives [a] back): the constraint construction tests
    [array_in_bounds] before it writes and ends otherwise (see
    [set_lower]), and the loop over [q] writes [q[i]] for
    [i < kNumParam], the length of [q], only. *)
Definition array_store (a : c_array) (i : Z) (v : float) : c_array :=
  if array_in_bounds a i then <[Z.to_nat i := Some v]> a else a.

(** [for (int i = 0; i < n; ++i) body]: the body runs for
    [i = 0, 1, ..., n - 1] in this order, and not at all when [n <= 0]. *)
Definition for_range {State : Type} (n : Z) (body : Z → State → State)
    (s : State) : State :=
  foldl (λ s i, body i s) s (seqZ 0 n).

(** ** The constraint builder's state *)

(** An access outside its object. *)
Inductive access : Type :=
  | CoeffAt (row col : Z)
  | LowerAt (i : Z)
  | UpperAt (i : Z).

(** The locals of [optimize] that the constraint construction writes.
    [out_of_bounds] holds the write that left its object, when one has:
    from that write on the behaviour of the program is undefined, the
    construction is over, and every later statement leaves the state as
    it is. *)
Record constraints : Type := Constraints {
  affine_constraint : Eigen.MatrixXd;
  lower_bounds : c_array;
  upper_bounds : c_array;
  constraint_index : Z;
  out_of_bounds : list access
}.

(** [affine_constraint(row, col) = v]. *)
Definition set_coeff (row col : Z) (v : float) (c : constraints) : constraints :=
  match out_of_bounds c with
  | _ :: _ => c
  | [] =>
      if Eigen.in_bounds (affine_constraint c) row col then
        {| affine_constraint := Eigen.assign (affine_constraint c) row col v;
           lower_bounds := lower_bounds c;
           upper_bounds := upper_bounds c;
           constraint_index := constraint_index c;
           out_of_bounds := [] |}
      else
        {| affine_constraint := affine_constraint c;
           lower_bounds := lower_bounds c;
           upper_bounds := upper_bounds c;
           constraint_index := constraint_index c;
           out_of_bounds := [CoeffAt row col] |}
  end.

(** [lower_bounds[i] = v]. *)
Definition set_lower (i : Z) (v : float) (c : constraints) : constraints :=
  match out_of_bounds c with
  | _ :: _ => c
  | [] =>
      if array_in_bounds (lower_bounds c) i then
        {| affine_constraint := affine_constraint c;
           lower_bounds := array_store (lower_bounds c) i v;
           upper_bounds := upper_bounds c;
           constraint_index := constraint_index c;
           out_of_bounds := [] |}
      else
        {| affine_constraint := affine_constraint c;
           lower_bounds := lower_bounds c;
           upper_bounds := upper_bounds c;
           constraint_index := constraint_index c;
           out_of_bounds := [LowerAt i] |}
  end.

(** [upper_bounds[i] = v]. *)
Definition set_upper (i : Z) (v : float) (c : constraints) : constraints :=
  match out_of_bounds c with
  | _ :: _ => c
  | [] =>
      if array_in_bounds (upper_bounds c) i then
        {| affine_constraint := affine_constraint c;
           lower_bounds := lower_bounds c;
           upper_bounds := array_store (upper_bounds c) i v;
           constraint_index := constraint_index c;
           out_of_bounds := [] |}
      else
        {| affine_constraint := affine_constraint c;
           lower_bounds := lower_bounds c;
           upper_bounds := upper_bounds c;
           constraint_index := constraint_index c;
           out_of_bounds := [UpperAt i] |}
  end.

(** [++constraint_index]. *)
Definition next_row (c : constraints) : constraints :=
  match out_of_bounds c with
  | _ :: _ => c
  | [] =>
      {| affine_constraint := affine_constraint c;
         lower_bounds := lower_bounds c;
         upper_bounds := upper_bounds c;
         constraint_index := constraint_index c + 1;
         out_of_bounds := [] |}
  end.

(** ** Configuration, solver interface and optimizer object *)

(** The gflags the file reads. *)
Record PlanningFlags : Type := {
  FLAGS_weight_lateral_offset : float;
  FLAGS_weight_lateral_obstacle_distance : float;
  FLAGS_weight_lateral_derivative : float;
  FLAGS_weight_lateral_second_order_derivative : float;
  FLAGS_lateral_third_order_derivative_max : float;
  FLAGS_enable_osqp_debug : bool
}.

(** A matrix in compressed-sparse-column form, as [csc_matrix] receives it. *)
Record csc : Type := {
  csc_m : Z;
  csc_n : Z;
  csc_nzmax : Z;
  csc_x : list float;
  csc_i : list Z;
  csc_p : list Z
}.

(** The settings [optimize] changes; the others keep the values of
    [osqp_set_default_settings]. *)
Record OSQPSettings : Type := {
  alpha : float;
  eps_abs : float;
  eps_rel : float;
  max_iter : Z;
  polish : bool;
  verbose : bool
}.

Record OSQPData : Type := {
  data_n : Z;
  data_m : Z;
  data_P : csc;
  data_q : c_array;
  data_A : csc;
  data_l : c_array;
  data_u : c_array
}.

(** What [optimize] can see of a solved workspace: the primal vector
    [work->solution->x] and the status [work->info->status_val]. *)
Record OSQPWorkspace : Type := {
  solution_x : list float;
  info_status_val : Z
}.

(** [work->solution->x[i]].  OSQP allocates [x] with [data->n] entries,
    and [optimize] reads below [3 * num_var = data->n]. *)
Definition x_at (work : OSQPWorkspace) (i : Z) : float :=
  default 0%float (solution_x work !! Z.to_nat i).

(** The members of the optimizer object. *)
Record OsqpLateralQPOptimizer : Type := {
  delta_s_ : float;
  opt_d_ : list float;
  opt_d_prime_ : list float;
  opt_d_pprime_ : list float
}.

(** [d_bounds[i]] on the [std::vector] of station bounds.  The code
    subscripts it only under [i < num_var = d_bounds.size()]. *)
Definition bound_at (d_bounds : list (float * float)) (i : Z)
  : float * float :=
  default (0%float, 0%float) (d_bounds !! Z.to_nat i).

(** [v[i] = x] on a [std::vector]. *)
Definition vector_assign (v : list float) (i : Z) (x : float) : list float :=
  if (0 <=? i) && (i <? Z.of_nat (length v)) then <[Z.to_nat i := x]> v else v.

(** How a call of [optimize] ends: it returns its [bool]; or [CHECK_EQ]
    finds its two arguments different and aborts the process; or a write
    has left its object, the behaviour of the program is undefined from
    there on and the call gets no further (in practice the process dies
    on the spot). *)
Inductive outcome : Type :=
  | Returned (self : OsqpLateralQPOptimizer) (result : bool)
  | CheckFailed (constraint_index kNumConstraint : Z)
  | Undefined (write : access).

(** A finished constraint row: its coefficients and its two bounds. *)
Record row : Type := Row {
  row_coeffs : list float;
  row_lower : float;
  row_upper : float
}.

(** [cols] zero coefficients: a row of [MatrixXd::Zero]. *)
Definition zero_row (cols : Z) : list float :=
  replicate (Z.to_nat cols) 0%float.

(** The construction has finished the rows [done] of a [rows] x [cols]
    matrix: they are the first rows, the rows below them are still zero
    with no bound written, the row counter stands at the next row, and
    no write has left its object. *)
Definition built (rows : nat) (cols : Z) (done : list row)
    (c : constraints) : Prop :=
  affine_constraint c =
    (row_coeffs <$> done) ++ replicate (rows - length done) (zero_row cols)
  ∧ lower_bounds c =
    (Some ∘ row_lower <$> done) ++ replicate (rows - length done) None
  ∧ upper_bounds c =
    (Some ∘ row_upper <$> done) ++ replicate (rows - length done) None
  ∧ constraint_index c = Z.of_nat (length done)
  ∧ out_of_bounds c = [].

(** The same in the middle of a loop body: the row under construction
    holds [cur], and its bounds [lo] and [hi]. *)
Definition building (rows : nat) (cols : Z) (done : list row)
    (cur : list float) (lo hi : option float) (c : constraints) : Prop :=
  affine_constraint c =
    (row_coeffs <$> done) ++
    cur :: replicate (rows - S (length done)) (zero_row cols)
  ∧ lower_bounds c =
    (Some ∘ row_lower <$> done) ++
    lo :: replicate (rows - S (length done)) None
  ∧ upper_bounds c =
    (Some ∘ row_upper <$> done) ++
    hi :: replicate (rows - S (length done)) None
  ∧ constraint_index c = Z.of_nat (length done)
  ∧ out_of_bounds c = []
  ∧ length cur = Z.to_nat cols.

(** ** A concrete configuration

    The scenario of three stations one unit apart with corridor [-1, 1],
    starting at rest on the reference line, and stand-ins for the
    collaborators that are not part of the file. *)

Definition sample_flags : PlanningFlags :=
  {| FLAGS_weight_lateral_offset := 1.0%float;
     FLAGS_weight_lateral_obstacle_distance := 0.5%float;
     FLAGS_weight_lateral_derivative := 500.0%float;
     FLAGS_weight_lateral_second_order_derivative := 1000.0%float;
     FLAGS_lateral_third_order_derivative_max := 0.25%float;
     FLAGS_enable_osqp_debug := false |}.

Definition sample_state : float * float * float :=
  (0.0%float, 0.0%float, 0.0%float).

Definition sample_bounds : list (float * float) :=
  [((-1.0)%float, 1.0%float);
   ((-1.0)%float, 1.0%float);
   ((-1.0)%float, 1.0%float)].

(** Modelled from the spec: [DenseToCSCMatrix] is declared in
    [modules/common/math/matrix_operations.h], which is not part of the
    file.  It enumerates the nonzero entries column by column: their
    values, their row indices, and for every column the number of entries
    before it, closed by the total. *)
Definition sample_DenseToCSCMatrix (dense : Eigen.MatrixXd)
  : list float * list Z * list Z :=
  let cols := Z.of_nat (length (default [] (head dense))) in
  for_range cols
    (λ col '(data, indices, indptr),
       let '(data, indices) :=
         for_range (Eigen.rows dense)
           (λ row '(data, indices),
              match Eigen.coeff dense row col with
              | Some v =>
                  if (v =? 0)%float then (data, indices)
                  else (data ++ [v], indices ++ [row])
              | None => (data, indices)
              end)
           (data, indices) in
       (data, indices, indptr ++ [Z.of_nat (length data)]))
    ([], [], [0]).

(** A solver that reports a primal vector of ones together with the
    status "primal infeasible" ([OSQP_PRIMAL_INFEASIBLE = -3]). *)
Definition sample_osqp_setup (data : OSQPData) (_ : OSQPSettings)
  : OSQPWorkspace :=
  {| solution_x := replicate (Z.to_nat (data_n data)) 0.0%float;
     info_status_val := 0 |}.

Definition sample_osqp_solve (work : OSQPWorkspace) : OSQPWorkspace :=
  {| solution_x := (λ _, 1.0%float) <$> solution_x work;
     info_status_val := -3 |}.

(** Modelled from the spec: the class is declared in the header, which is
    not part of the file.  A fresh instance holds three empty output
    sequences; [optimize] overwrites [delta_s_] before anything reads
    it. *)
Definition fresh : OsqpLateralQPOptimizer :=
  {| delta_s_ := 0.0%float;
     opt_d_ := [];
     opt_d_prime_ := [];
     opt_d_pprime_ := [] |}.

(** A solver whose workspace carries one cell more than the 3N the
    extraction reads, and the status "solved" ([OSQP_SOLVED = 1]). *)
Definition sample_osqp_solve_padded (work : OSQPWorkspace) : OSQPWorkspace :=
  {| solution_x := ((λ _, 1.0%float) <$> solution_x work) ++ [7.0%float];
     info_status_val := 1 |}.

(** A station sequence of the length of [sample_bounds] with other
    corridors, and another initial state. *)
Definition sample_bounds_wide : list (float * float) :=
  [((-2.0)%float, 0.5%float);
   ((-1.5)%float, 1.5%float);
   (0.0%float, 3.0%float)].

Definition sample_state_moving : float * float * float :=
  (0.25%float, (-0.125)%float, 0.5%float).

(** An instance that holds the results of an earlier call. *)
Definition used : OsqpLateralQPOptimizer :=
  {| delta_s_ := 1.0%float;
     opt_d_ := [0.5; 0.25; 0.125]%float;
     opt_d_prime_ := [0.75; 0.5; 0.0]%float;
     opt_d_pprime_ := [0.25; 0.125; 0.0]%float |}.

(** A solver that returns the primal vector 1.0, 2.0, ..., 9.0. *)
Definition sample_osqp_solve_ramp (_ : OSQPWorkspace) : OSQPWorkspace :=
  {| solution_x := [1.0; 2.0; 3.0; 4.0; 5.0; 6.0; 7.0; 8.0; 9.0]%float;
     info_status_val := 1 |}.

(** ** The optimizer *)

Section Optimizer.

(** The configured weights and limits. *)
Variable flags : PlanningFlags.

(** [apollo::common::math::DenseToCSCMatrix]: the values, row indices and
    column pointers of a dense matrix. *)
Variable DenseToCSCMatrix : Eigen.MatrixXd → list float * list Z * list Z.

(** OSQP: [osqp_setup] and [osqp_solve]. *)
Variable osqp_setup : OSQPData → OSQPSettings → OSQPWorkspace.
Variable osqp_solve : OSQPWorkspace → OSQPWorkspace.

(** [const int kNumParam = 3 * d_bounds.size()]. *)
Definition kNumParam (d_bounds : list (float * float)) : Z :=
  3 * Z.of_nat (length d_bounds).

(** [const int kNumConstraint = kNumParam + 3 * (num_var - 1) + 3]. *)
Definition kNumConstraint (d_bounds : list (float * float)) : Z :=
  let num_var := Z.of_nat (length d_bounds) in
  kNumParam d_bounds + 3 * (num_var - 1) + 3.

(** The dense kernel of [CalculateKernel], after its loop. *)
Definition kernel (d_bounds : list (float * float)) : Eigen.MatrixXd :=
  let size := Z.of_nat (length d_bounds) in
  let kNumParam := kNumParam d_bounds in
  for_range kNumParam
    (λ i kernel,
       if i <? size then
         Eigen.assign kernel i i
           (2.0 * FLAGS_weight_lateral_offset flags +
            2.0 * FLAGS_weight_lateral_obstacle_distance flags)%float
       else if i <? 2 * size then
         Eigen.assign kernel i i
           (2.0 * FLAGS_weight_lateral_derivative flags)%float
       else
         Eigen.assign kernel i i
           (2.0 * FLAGS_weight_lateral_second_order_derivative flags)%float)
    (Eigen.Zero kNumParam kNumParam).

Definition CalculateKernel (d_bounds : list (float * float))
  : list float * list Z * list Z :=
  DenseToCSCMatrix (kernel d_bounds).

(** The body of the first loop: [d_i+1'' - d_i'']. *)
Definition jerk_row (delta_s : float) (pprime_offset i : Z)
    (c : constraints) : constraints :=
  let row := constraint_index c in
  let col := pprime_offset + i in
  let c := set_coeff row col (-1.0)%float c in
  let c := set_coeff row (col + 1) 1.0%float c in
  let c := set_lower (constraint_index c)
             (- FLAGS_lateral_third_order_derivative_max flags * delta_s)%float c in
  let c := set_upper (constraint_index c)
             (FLAGS_lateral_third_order_derivative_max flags * delta_s)%float c in
  next_row c.

(** The body of the second loop:
    [d_i+1' - d_i' - 0.5 * ds * (d_i'' + d_i+1'')]. *)
Definition velocity_row (delta_s : float) (prime_offset pprime_offset i : Z)
    (c : constraints) : constraints :=
  let c := set_coeff (constraint_index c) (prime_offset + i) (-1.0)%float c in
  let c := set_coeff (constraint_index c) (prime_offset + i + 1) 1.0%float c in
  let c := set_coeff (constraint_index c) (pprime_offset + i)
             (-0.5 * delta_s)%float c in
  let c := set_coeff (constraint_index c) (pprime_offset + i + 1)
             (-0.5 * delta_s)%float c in
  let c := set_lower (constraint_index c) 0.0%float c in
  let c := set_upper (constraint_index c) 0.0%float c in
  next_row c.

(** The body of the third loop:
    [d_i+1 - d_i - d_i' * ds - 1/3 * d_i'' * ds^2 - 1/6 * d_i+1'' * ds^2]. *)
Definition position_row (delta_s : float) (prime_offset pprime_offset i : Z)
    (c : constraints) : constraints :=
  let c := set_coeff (constraint_index c) i (-1.0)%float c in
  let c := set_coeff (constraint_index c) (i + 1) 1.0%float c in
  let c := set_coeff (constraint_index c) (prime_offset + i) (- delta_s)%float c in
  let c := set_coeff (constraint_index c) (pprime_offset + i)
             (- delta_s * delta_s / 3.0)%float c in
  let c := set_coeff (constraint_index c) (pprime_offset + i + 1)
             (- delta_s * delta_s / 6.0)%float c in
  let c := set_lower (constraint_index c) 0.0%float c in
  let c := set_upper (constraint_index c) 0.0%float c in
  next_row c.

(** One of the three rows that pin the initial state. *)
Definition pin_row (col : Z) (value : float) (c : constraints) : constraints :=
  let c := set_coeff (constraint_index c) col 1.0%float c in
  let c := set_lower (constraint_index c) value c in
  let c := set_upper (constraint_index c) value c in
  next_row c.

Definition LARGE_VALUE : float := 2.0%float.

(** The body of the last loop: the bounds of variable [i]. *)
Definition box_row (d_bounds : list (float * float)) (num_var i : Z)
    (c : constraints) : constraints :=
  let c := set_coeff (constraint_index c) i 1.0%float c in
  let c :=
    if i <? num_var then
      let c := set_lower (constraint_index c)
                 ((bound_at d_bounds i).1) c in
      set_upper (constraint_index c)
        ((bound_at d_bounds i).2) c
    else
      let c := set_lower (constraint_index c) (- LARGE_VALUE)%float c in
      set_upper (constraint_index c) LARGE_VALUE c in
  next_row c.

(** [optimize] from [const int num_var] down to the last loop: the
    constraint matrix, its bounds and the running row counter.  The
    first three loops, [for (int i = 0; i + 1 < num_var; ++i)], run for
    [i = 0, ..., num_var - 2]: the range of length [num_var - 1]. *)
Definition build_constraints (d_state : float * float * float)
    (delta_s : float) (d_bounds : list (float * float)) : constraints :=
  let num_var := Z.of_nat (length d_bounds) in
  let kNumParam := kNumParam d_bounds in
  let kNumConstraint := kNumConstraint d_bounds in
  let c :=
    {| affine_constraint := Eigen.Zero kNumConstraint kNumParam;
       lower_bounds := uninitialized kNumConstraint;
       upper_bounds := uninitialized kNumConstraint;
       constraint_index := 0;
       out_of_bounds := [] |} in
  let prime_offset := num_var in
  let pprime_offset := 2 * num_var in
  let c := for_range (num_var - 1) (jerk_row delta_s pprime_offset) c in
  let c := for_range (num_var - 1)
             (velocity_row delta_s prime_offset pprime_offset) c in
  let c := for_range (num_var - 1)
             (position_row delta_s prime_offset pprime_offset) c in
  let c := pin_row 0 d_state.1.1 c in
  let c := pin_row prime_offset d_state.1.2 c in
  let c := pin_row pprime_offset d_state.2 c in
  for_range kNumParam (box_row d_bounds num_var) c.

(** The linear term [q] of the objective. *)
Definition linear_term (d_bounds : list (float * float)) : c_array :=
  let num_var := Z.of_nat (length d_bounds) in
  let kNumParam := kNumParam d_bounds in
  for_range kNumParam
    (λ i q,
       if i <? num_var then
         array_store q i
           (-2.0 * FLAGS_weight_lateral_obstacle_distance flags *
            ((bound_at d_bounds i).1 +
             (bound_at d_bounds i).2))%float
       else array_store q i 0.0%float)
    (uninitialized kNumParam).

(** The solver settings [optimize] uses. *)
Definition settings : OSQPSettings :=
  {| alpha := 1.0%float;
     eps_abs := 0x1.4f8b588e368f1p-17%float;   (* 1.0e-05 *)
     eps_rel := 0x1.4f8b588e368f1p-17%float;   (* 1.0e-05 *)
     max_iter := 5000;
     polish := true;
     verbose := FLAGS_enable_osqp_debug flags |}.

(** "extract primal results": three [push_back]s per station, then the
    two terminal entries are overwritten. *)
Definition extract (self : OsqpLateralQPOptimizer) (num_var : Z)
    (work : OSQPWorkspace) : OsqpLateralQPOptimizer :=
  let self :=
    for_range num_var
      (λ i self,
         {| delta_s_ := delta_s_ self;
            opt_d_ := opt_d_ self ++ [x_at work i];
            opt_d_prime_ := opt_d_prime_ self ++ [x_at work (i + num_var)];
            opt_d_pprime_ :=
              opt_d_pprime_ self ++ [x_at work (i + 2 * num_var)] |})
      self in
  {| delta_s_ := delta_s_ self;
     opt_d_ := opt_d_ self;
     opt_d_prime_ :=
       vector_assign (opt_d_prime_ self) (num_var - 1) 0.0%float;
     opt_d_pprime_ :=
       vector_assign (opt_d_pprime_ self) (num_var - 1) 0.0%float |}.

(** "Populate data": [P] from the CSC triple of the kernel, [q], [A]
    from the CSC triple of the constraint matrix, and the two bound
    arrays. *)
Definition assemble (P : list float * list Z * list Z)
    (d_bounds : list (float * float)) (c : constraints) : OSQPData :=
  let '(P_data, P_indices, P_indptr) := P in
  let '(A_data, A_indices, A_indptr) :=
    DenseToCSCMatrix (affine_constraint c) in
  let n := kNumParam d_bounds in
  let m := Eigen.rows (affine_constraint c) in
  {| data_n := n;
     data_m := m;
     data_P := {| csc_m := n; csc_n := n;
                  csc_nzmax := Z.of_nat (length P_data);
                  csc_x := P_data; csc_i := P_indices; csc_p := P_indptr |};
     data_q := linear_term d_bounds;
     data_A := {| csc_m := m; csc_n := n;
                  csc_nzmax := Z.of_nat (length A_data);
                  csc_x := A_data; csc_i := A_indices; csc_p := A_indptr |};
     data_l := lower_bounds c;
     data_u := upper_bounds c |}.

Definition optimize (self : OsqpLateralQPOptimizer)
    (d_state : float * float * float) (delta_s : float)
    (d_bounds : list (float * float)) : outcome :=
  let P := CalculateKernel d_bounds in
  (* delta_s_ = delta_s *)
  let self :=
    {| delta_s_ := delta_s;
       opt_d_ := opt_d_ self;
       opt_d_prime_ := opt_d_prime_ self;
       opt_d_pprime_ := opt_d_pprime_ self |} in
  let num_var := Z.of_nat (length d_bounds) in
  let c := build_constraints d_state delta_s d_bounds in
  match out_of_bounds c with
  | write :: _ =>
      (* the construction has written outside an object *)
      Undefined write
  | [] =>
      (* CHECK_EQ(constraint_index, kNumConstraint) *)
      if negb (constraint_index c =? kNumConstraint d_bounds) then
        CheckFailed (constraint_index c) (kNumConstraint d_bounds)
      else
        let data := assemble P d_bounds c in
        (* osqp_setup, osqp_solve: the status of the solve is not read *)
        let work := osqp_solve (osqp_setup data settings) in
        Returned (extract self num_var work) true
  end.

(** ** The rows the construction leaves behind

    What each loop body writes into the zero row it starts from. *)

Definition jerk_spec (delta_s : float) (num_var i : Z) : row :=
  Row (<[Z.to_nat (2 * num_var + i + 1) := 1.0%float]>
         (<[Z.to_nat (2 * num_var + i) := (-1.0)%float]>
            (zero_row (3 * num_var))))
      (- FLAGS_lateral_third_order_derivative_max flags * delta_s)%float
      (FLAGS_lateral_third_order_derivative_max flags * delta_s)%float.

Definition velocity_spec (delta_s : float) (num_var i : Z) : row :=
  Row (<[Z.to_nat (2 * num_var + i + 1) := (-0.5 * delta_s)%float]>
         (<[Z.to_nat (2 * num_var + i) := (-0.5 * delta_s)%float]>
            (<[Z.to_nat (num_var + i + 1) := 1.0%float]>
               (<[Z.to_nat (num_var + i) := (-1.0)%float]>
                  (zero_row (3 * num_var))))))
      0.0%float 0.0%float.

Definition position_spec (delta_s : float) (num_var i : Z) : row :=
  Row (<[Z.to_nat (2 * num_var + i + 1) := (- delta_s * delta_s / 6.0)%float]>
         (<[Z.to_nat (2 * num_var + i) := (- delta_s * delta_s / 3.0)%float]>
            (<[Z.to_nat (num_var + i) := (- delta_s)%float]>
               (<[Z.to_nat (i + 1) := 1.0%float]>
                  (<[Z.to_nat i := (-1.0)%float]>
                     (zero_row (3 * num_var)))))))
      0.0%float 0.0%float.

Definition pin_spec (num_var col : Z) (value : float) : row :=
  Row (<[Z.to_nat col := 1.0%float]> (zero_row (3 * num_var))) value value.

Definition box_spec (d_bounds : list (float * float)) (num_var i : Z) : row :=
  Row (<[Z.to_nat i := 1.0%float]> (zero_row (3 * num_var)))
      (if i <? num_var
       then (bound_at d_bounds i).1
       else (- LARGE_VALUE)%float)
      (if i <? num_var
       then (bound_at d_bounds i).2
       else LARGE_VALUE).

(** All rows, in the order of construction. *)
Definition constraint_rows (d_state : float * float * float)
    (delta_s : float) (d_bounds : list (float * float)) : list row :=
  let num_var := Z.of_nat (length d_bounds) in
  ((((((jerk_spec delta_s num_var <$> seqZ 0 (num_var - 1))
       ++ (velocity_spec delta_s num_var <$> seqZ 0 (num_var - 1)))
      ++ (position_spec delta_s num_var <$> seqZ 0 (num_var - 1)))
     ++ [pin_spec num_var 0 d_state.1.1])
    ++ [pin_spec num_var num_var d_state.1.2])
   ++ [pin_spec num_var (2 * num_var) d_state.2])
  ++ (box_spec d_bounds num_var <$> seqZ 0 (3 * num_var)).

(** The weight [CalculateKernel] writes on the diagonal at index [i]. *)
Definition kernel_weight (size i : Z) : float :=
  if i <? size then
    (2.0 * FLAGS_weight_lateral_offset flags +
     2.0 * FLAGS_weight_lateral_obstacle_distance flags)%float
  else if i <? 2 * size then
    (2.0 * FLAGS_weight_lateral_derivative flags)%float
  else
    (2.0 * FLAGS_weight_lateral_second_order_derivative flags)%float.

(** Row [i] of the kernel once the loop has passed it. *)
Definition kernel_row (size i : Z) : list float :=
  <[Z.to_nat i := kernel_weight size i]> (zero_row (3 * size)).

(** The value the loop over [q] writes at index [i]. *)
Definition linear_term_at (d_bounds : list (float * float)) (i : Z) : float :=
  if i <? Z.of_nat (length d_bounds) then
    (-2.0 * FLAGS_weight_lateral_obstacle_distance flags *
     ((bound_at d_bounds i).1 +
      (bound_at d_bounds i).2))%float
  else 0.0%float.

(** ** Writes into a matrix and into an array *)

Lemma coeff_middle (pre post : list (list float)) (cur : list float)
    (row col : Z) :
  row = Z.of_nat (length pre) → 0 ≤ col →
  Eigen.coeff (pre ++ cur :: post) row col = cur !! Z.to_nat col.
Proof.
  intros -> Hcol. unfold Eigen.coeff.
  rewrite (proj2 (Z.leb_le 0 _)) by lia.
  rewrite (proj2 (Z.leb_le 0 col)) by lia. cbn [andb].
  rewrite Nat2Z.id, list_lookup_middle by done. done.
Qed.

Lemma assign_middle (pre post : list (list float)) (cur : list float)
    (row col : Z) (v : float) :
  row = Z.of_nat (length pre) → 0 ≤ col < Z.of_nat (length cur) →
  Eigen.in_bounds (pre ++ cur :: post) row col = true
  ∧ Eigen.assign (pre ++ cur :: post) row col v
    = pre ++ <[Z.to_nat col := v]> cur :: post.
Proof.
  intros Hrow Hcol.
  assert (Eigen.in_bounds (pre ++ cur :: post) row col = true) as Hin.
  { unfold Eigen.in_bounds. rewrite coeff_middle by (done || lia).
    destruct (lookup_lt_is_Some_2 cur (Z.to_nat col)) as [x ->]; [lia|done]. }
  split; [done|]. unfold Eigen.assign. rewrite Hin. subst row.
  rewrite Nat2Z.id.
  replace (length pre) with (length pre + 0)%nat at 1 by lia.
  by rewrite alter_app_r.
Qed.

Lemma store_middle (pre post : c_array) (cur : option float) (i : Z)
    (v : float) :
  i = Z.of_nat (length pre) →
  array_in_bounds (pre ++ cur :: post) i = true
  ∧ array_store (pre ++ cur :: post) i v = pre ++ Some v :: post.
Proof.
  intros ->.
  assert (array_in_bounds (pre ++ cur :: post) (Z.of_nat (length pre)) = true)
    as Hin.
  { unfold array_in_bounds. rewrite length_app. simpl.
    apply andb_true_intro. split; [apply Z.leb_le|apply Z.ltb_lt]; lia. }
  split; [done|]. unfold array_store. rewrite Hin, Nat2Z.id.
  replace (length pre) with (length pre + 0)%nat at 1 by lia.
  by rewrite insert_app_r.
Qed.


(** ** One row at a time *)

Lemma built_open (rows : nat) (cols : Z) (done : list row) (c : constraints) :
  built rows cols done c → (length done < rows)%nat →
  building rows cols done (zero_row cols) None None c.
Proof.
  intros (HA & Hl & Hu & Hi & Ho) Hlt.
  assert ((rows - length done)%nat = S (rows - S (length done))) as E by lia.
  rewrite E in HA, Hl, Hu.
  rewrite replicate_S in HA. rewrite replicate_S in Hl.
  rewrite replicate_S in Hu.
  repeat split; try done. unfold zero_row. by rewrite length_replicate.
Qed.

Lemma building_set_coeff (rows : nat) (cols : Z) (done : list row)
    (cur : list float) (lo hi : option float) (c : constraints)
    (row col : Z) (v : float) :
  building rows cols done cur lo hi c →
  row = constraint_index c → 0 ≤ col < cols →
  building rows cols done (<[Z.to_nat col := v]> cur) lo hi
    (set_coeff row col v c).
Proof.
  intros (HA & Hl & Hu & Hi & Ho & Hlen) -> Hcol.
  destruct (assign_middle (row_coeffs <$> done)
              (replicate (rows - S (length done)) (zero_row cols))
              cur (constraint_index c) col v) as [Hin Hset].
  { by rewrite Hi, length_fmap. }
  { lia. }
  unfold building, set_coeff. rewrite Ho, HA, Hin. simpl. rewrite Hset.
  repeat split; try done. by rewrite length_insert.
Qed.

Lemma building_set_lower (rows : nat) (cols : Z) (done : list row)
    (cur : list float) (lo hi : option float) (c : constraints)
    (i : Z) (v : float) :
  building rows cols done cur lo hi c → i = constraint_index c →
  building rows cols done cur (Some v) hi (set_lower i v c).
Proof.
  intros (HA & Hl & Hu & Hi & Ho & Hlen) ->.
  destruct (store_middle (Some ∘ row_lower <$> done)
              (replicate (rows - S (length done)) None)
              lo (constraint_index c) v) as [Hin Hset].
  { by rewrite Hi, length_fmap. }
  unfold building, set_lower. rewrite Ho, Hl, Hin. simpl. by rewrite Hset.
Qed.

Lemma building_set_upper (rows : nat) (cols : Z) (done : list row)
    (cur : list float) (lo hi : option float) (c : constraints)
    (i : Z) (v : float) :
  building rows cols done cur lo hi c → i = constraint_index c →
  building rows cols done cur lo (Some v) (set_upper i v c).
Proof.
  intros (HA & Hl & Hu & Hi & Ho & Hlen) ->.
  destruct (store_middle (Some ∘ row_upper <$> done)
              (replicate (rows - S (length done)) None)
              hi (constraint_index c) v) as [Hin Hset].
  { by rewrite Hi, length_fmap. }
  unfold building, set_upper. rewrite Ho, Hu, Hin. simpl. by rewrite Hset.
Qed.

Lemma building_next (rows : nat) (cols : Z) (done : list row)
    (cur : list float) (lo hi : float) (c : constraints) :
  building rows cols done cur (Some lo) (Some hi) c →
  built rows cols (done ++ [Row cur lo hi]) (next_row c).
Proof.
  intros (HA & Hl & Hu & Hi & Ho & Hlen).
  unfold built, next_row. rewrite Ho. simpl.
  rewrite !fmap_app, <- !app_assoc, length_app; simpl.
  replace (rows - (length done + 1))%nat with (rows - S (length done))%nat
    by lia.
  repeat split; try done. lia.
Qed.

(** A loop whose body finishes one row per iteration finishes the rows
    of its range, in order. *)
Lemma for_range_built_nat (rows : nat) (cols : Z) (spec : Z → row)
    (body : Z → constraints → constraints) (k : nat) (done : list row)
    (c : constraints) :
  (∀ i done' c', 0 ≤ i < Z.of_nat k → (length done' < rows)%nat →
     built rows cols done' c' →
     built rows cols (done' ++ [spec i]) (body i c')) →
  (length done + k ≤ rows)%nat →
  built rows cols done c →
  built rows cols (done ++ (spec <$> seqZ 0 (Z.of_nat k)))
    (for_range (Z.of_nat k) body c).
Proof.
  intros Hbody Hk Hc. induction k as [|k IH].
  - unfold for_range. simpl. by rewrite app_nil_r.
  - unfold for_range in *. rewrite seqZ_S, foldl_snoc, fmap_app, app_assoc.
    simpl. apply Hbody; [lia| |].
    + rewrite length_app, length_fmap, length_seqZ. lia.
    + apply IH; [|lia]. intros i done' c' Hi. apply Hbody. lia.
Qed.

Lemma for_range_built (rows : nat) (cols : Z) (spec : Z → row)
    (body : Z → constraints → constraints) (n : Z) (done : list row)
    (c : constraints) :
  0 ≤ n →
  (∀ i done' c', 0 ≤ i < n → (length done' < rows)%nat →
     built rows cols done' c' →
     built rows cols (done' ++ [spec i]) (body i c')) →
  (length done + Z.to_nat n ≤ rows)%nat →
  built rows cols done c →
  built rows cols (done ++ (spec <$> seqZ 0 n)) (for_range n body c).
Proof.
  intros Hn Hbody Hle Hc. rewrite <- (Z2Nat.id n) by done.
  apply for_range_built_nat; [|done|done].
  intros i done' c' Hi. apply Hbody. lia.
Qed.

(** Writing a coefficient or a bound never moves the row counter. *)
Lemma constraint_index_set_coeff (row col : Z) (v : float) (c : constraints) :
  constraint_index (set_coeff row col v c) = constraint_index c.
Proof.
  unfold set_coeff. destruct (out_of_bounds c); [|done].
  by destruct (Eigen.in_bounds _ _ _).
Qed.

Lemma constraint_index_set_lower (i : Z) (v : float) (c : constraints) :
  constraint_index (set_lower i v c) = constraint_index c.
Proof.
  unfold set_lower. destruct (out_of_bounds c); [|done].
  by destruct (array_in_bounds _ _).
Qed.

Lemma constraint_index_set_upper (i : Z) (v : float) (c : constraints) :
  constraint_index (set_upper i v c) = constraint_index c.
Proof.
  unfold set_upper. destruct (out_of_bounds c); [|done].
  by destruct (array_in_bounds _ _).
Qed.

Ltac same_row :=
  rewrite ?constraint_index_set_coeff, ?constraint_index_set_lower,
    ?constraint_index_set_upper;
  reflexivity.

Lemma jerk_row_built (rows : nat) (delta_s : float) (num_var i : Z)
    (done : list row) (c : constraints) :
  0 ≤ i < num_var - 1 → (length done < rows)%nat →
  built rows (3 * num_var) done c →
  built rows (3 * num_var) (done ++ [jerk_spec delta_s num_var i])
    (jerk_row delta_s (2 * num_var) i c).
Proof.
  intros Hi Hlt Hc. unfold jerk_row, jerk_spec. cbv zeta.
  apply building_next.
  eapply building_set_upper; [|same_row].
  eapply building_set_lower; [|same_row].
  apply building_set_coeff; [|same_row|lia].
  apply building_set_coeff; [|same_row|lia].
  by apply built_open.
Qed.

Lemma velocity_row_built (rows : nat) (delta_s : float) (num_var i : Z)
    (done : list row) (c : constraints) :
  0 ≤ i < num_var - 1 → (length done < rows)%nat →
  built rows (3 * num_var) done c →
  built rows (3 * num_var) (done ++ [velocity_spec delta_s num_var i])
    (velocity_row delta_s num_var (2 * num_var) i c).
Proof.
  intros Hi Hlt Hc. unfold velocity_row, velocity_spec. cbv zeta.
  apply building_next.
  eapply building_set_upper; [|same_row].
  eapply building_set_lower; [|same_row].
  do 4 (apply building_set_coeff; [|same_row|lia]).
  by apply built_open.
Qed.

Lemma position_row_built (rows : nat) (delta_s : float) (num_var i : Z)
    (done : list row) (c : constraints) :
  0 ≤ i < num_var - 1 → (length done < rows)%nat →
  built rows (3 * num_var) done c →
  built rows (3 * num_var) (done ++ [position_spec delta_s num_var i])
    (position_row delta_s num_var (2 * num_var) i c).
Proof.
  intros Hi Hlt Hc. unfold position_row, position_spec. cbv zeta.
  apply building_next.
  eapply building_set_upper; [|same_row].
  eapply building_set_lower; [|same_row].
  do 5 (apply building_set_coeff; [|same_row|lia]).
  by apply built_open.
Qed.

Lemma pin_row_built (rows : nat) (num_var col : Z) (value : float)
    (done : list row) (c : constraints) :
  0 ≤ col < 3 * num_var → (length done < rows)%nat →
  built rows (3 * num_var) done c →
  built rows (3 * num_var) (done ++ [pin_spec num_var col value])
    (pin_row col value c).
Proof.
  intros Hi Hlt Hc. unfold pin_row, pin_spec. cbv zeta.
  apply building_next.
  eapply building_set_upper; [|same_row].
  eapply building_set_lower; [|same_row].
  apply building_set_coeff; [|same_row|lia].
  by apply built_open.
Qed.

Lemma box_row_built (rows : nat) (d_bounds : list (float * float))
    (num_var i : Z) (done : list row) (c : constraints) :
  0 ≤ i < 3 * num_var → (length done < rows)%nat →
  built rows (3 * num_var) done c →
  built rows (3 * num_var) (done ++ [box_spec d_bounds num_var i])
    (box_row d_bounds num_var i c).
Proof.
  intros Hi Hlt Hc. unfold box_row, box_spec. cbv zeta.
  destruct (i <? num_var); apply building_next.
  - eapply building_set_upper; [|same_row].
    eapply building_set_lower; [|same_row].
    apply building_set_coeff; [|same_row|lia].
    by apply built_open.
  - eapply building_set_upper; [|same_row].
    eapply building_set_lower; [|same_row].
    apply building_set_coeff; [|same_row|lia].
    by apply built_open.
Qed.


(** ** Loops *)

Lemma seqZ_snoc (i : Z) : 0 ≤ i → seqZ 0 (i + 1) = seqZ 0 i ++ [i].
Proof.
  intros Hi. rewrite <- (Z2Nat.id i) at 1 by done.
  replace (Z.of_nat (Z.to_nat i) + 1) with (Z.of_nat (S (Z.to_nat i))) by lia.
  rewrite seqZ_S, Z2Nat.id by done. done.
Qed.

(** Loop invariants: what holds before the first iteration and is kept by
    every iteration holds when the loop is left. *)
Lemma for_range_ind {State : Type} (Inv : Z → State → Prop)
    (body : Z → State → State) (n : Z) (s : State) :
  0 ≤ n → Inv 0 s →
  (∀ i s', 0 ≤ i < n → Inv i s' → Inv (i + 1) (body i s')) →
  Inv n (for_range n body s).
Proof.
  intros Hn H0 Hstep. rewrite <- (Z2Nat.id n) by done.
  assert (Z.of_nat (Z.to_nat n) ≤ n) as Hle by lia.
  induction (Z.to_nat n) as [|k IH].
  - done.
  - unfold for_range in *. rewrite seqZ_S, foldl_snoc. simpl.
    replace (Z.of_nat (S k)) with (Z.of_nat k + 1) by lia.
    apply Hstep; [lia|]. apply IH. lia.
Qed.

(** ** The kernel *)

Lemma kernel_rows (d_bounds : list (float * float)) :
  kernel d_bounds
  = kernel_row (Z.of_nat (length d_bounds))
      <$> seqZ 0 (3 * Z.of_nat (length d_bounds)).
Proof.
  unfold kernel, kNumParam. cbv zeta.
  set (size := Z.of_nat (length d_bounds)).
  pose (Inv := λ (i : Z) (k : Eigen.MatrixXd),
          k = (kernel_row size <$> seqZ 0 i)
              ++ replicate (Z.to_nat (3 * size - i)) (zero_row (3 * size))).
  match goal with |- ?k = _ => enough (Inv (3 * size) k) as Hinv end.
  { unfold Inv in Hinv. rewrite Z.sub_diag in Hinv. simpl in Hinv.
    by rewrite app_nil_r in Hinv. }
  apply for_range_ind; [lia| |].
  - unfold Inv, Eigen.Zero, zero_row. simpl. by rewrite Z.sub_0_r.
  - intros i k Hi Hk. unfold Inv in Hk. subst k.
    unfold Inv. rewrite seqZ_snoc, fmap_app by lia.
    rewrite <- app_assoc. simpl.
    replace (Z.to_nat (3 * size - i))
      with (S (Z.to_nat (3 * size - (i + 1)))) by lia.
    rewrite replicate_S.
    assert (∀ v, Eigen.assign
                   ((kernel_row size <$> seqZ 0 i)
                    ++ zero_row (3 * size)
                    :: replicate (Z.to_nat (3 * size - (i + 1)))
                         (zero_row (3 * size))) i i v
                 = (kernel_row size <$> seqZ 0 i)
                   ++ <[Z.to_nat i := v]> (zero_row (3 * size))
                   :: replicate (Z.to_nat (3 * size - (i + 1)))
                        (zero_row (3 * size))) as Hassign.
    { intros v. apply assign_middle.
      - rewrite length_fmap, length_seqZ. lia.
      - unfold zero_row. rewrite length_replicate. lia. }
    assert (∀ v, v = kernel_weight size i →
                 <[Z.to_nat i := v]> (zero_row (3 * size)) = kernel_row size i)
      as Hrow by (by intros v ->).
    unfold kernel_weight in Hrow.
    destruct (i <? size); [by rewrite Hassign, Hrow|].
    destruct (i <? 2 * size); by rewrite Hassign, Hrow.
Qed.


(** ** The linear term *)

Lemma linear_term_cells (d_bounds : list (float * float)) :
  linear_term d_bounds
  = Some ∘ linear_term_at d_bounds <$> seqZ 0 (3 * Z.of_nat (length d_bounds)).
Proof.
  unfold linear_term, kNumParam. cbv zeta.
  set (size := Z.of_nat (length d_bounds)).
  pose (Inv := λ (i : Z) (q : c_array),
          q = (Some ∘ linear_term_at d_bounds <$> seqZ 0 i)
              ++ replicate (Z.to_nat (3 * size - i)) None).
  match goal with |- ?q = _ => enough (Inv (3 * size) q) as Hinv end.
  { unfold Inv in Hinv. rewrite Z.sub_diag in Hinv. simpl in Hinv.
    by rewrite app_nil_r in Hinv. }
  apply for_range_ind; [lia| |].
  - unfold Inv, uninitialized. simpl. by rewrite Z.sub_0_r.
  - intros i q Hi Hq. unfold Inv in Hq. subst q.
    unfold Inv. rewrite seqZ_snoc, fmap_app by lia.
    rewrite <- app_assoc. simpl.
    replace (Z.to_nat (3 * size - i))
      with (S (Z.to_nat (3 * size - (i + 1)))) by lia.
    rewrite replicate_S.
    assert (∀ v, array_store
                   ((Some ∘ linear_term_at d_bounds <$> seqZ 0 i)
                    ++ None :: replicate (Z.to_nat (3 * size - (i + 1))) None)
                   i v
                 = (Some ∘ linear_term_at d_bounds <$> seqZ 0 i)
                   ++ Some v
                   :: replicate (Z.to_nat (3 * size - (i + 1))) None)
      as Hstore.
    { intros v. apply store_middle. rewrite length_fmap, length_seqZ. lia. }
    assert (∀ v, v = linear_term_at d_bounds i →
                 Some v = Some (linear_term_at d_bounds i)) as Hcell
      by (by intros v ->).
    destruct (i <? size) eqn:E; rewrite Hstore;
      rewrite (Hcell _); try done;
      unfold linear_term_at; fold size; by rewrite E.
Qed.

(** ** The constraint rows *)

Ltac solve_length :=
  rewrite ?length_app, ?length_fmap, ?length_seqZ; simpl; lia.

Lemma length_constraint_rows (d_state : float * float * float)
    (delta_s : float) (d_bounds : list (float * float)) :
  d_bounds ≠ [] →
  length (constraint_rows d_state delta_s d_bounds)
  = Z.to_nat (kNumConstraint d_bounds).
Proof.
  intros Hne. assert (length d_bounds ≠ 0%nat) by by destruct d_bounds.
  unfold constraint_rows, kNumConstraint, kNumParam. cbv zeta.
  rewrite !length_app, !length_fmap, !length_seqZ. simpl. lia.
Qed.

(** The construction refines the list of rows: on a station sequence that
    is not empty every write lands where [constraint_rows] says. *)
Lemma build_constraints_built (d_state : float * float * float)
    (delta_s : float) (d_bounds : list (float * float)) :
  d_bounds ≠ [] →
  built (Z.to_nat (kNumConstraint d_bounds))
    (3 * Z.of_nat (length d_bounds))
    (constraint_rows d_state delta_s d_bounds)
    (build_constraints d_state delta_s d_bounds).
Proof.
  intros Hne. assert (length d_bounds ≠ 0%nat) by by destruct d_bounds.
  unfold build_constraints, constraint_rows. cbv zeta.
  set (num_var := Z.of_nat (length d_bounds)).
  assert (Z.to_nat (kNumConstraint d_bounds)
          = (3 * (length d_bounds - 1) + 3 + 3 * length d_bounds)%nat) as Hrows.
  { unfold kNumConstraint, kNumParam. lia. }
  assert (kNumParam d_bounds = 3 * num_var) as -> by done.
  apply for_range_built; [lia| | |].
  { intros i done' c' Hi. by apply box_row_built. }
  { solve_length. }
  apply pin_row_built; [lia| |].
  { solve_length. }
  apply pin_row_built; [lia| |].
  { solve_length. }
  apply pin_row_built; [lia| |].
  { solve_length. }
  apply for_range_built; [lia| | |].
  { intros i done' c' Hi. by apply position_row_built. }
  { solve_length. }
  apply for_range_built; [lia| | |].
  { intros i done' c' Hi. by apply velocity_row_built. }
  { solve_length. }
  apply (for_range_built _ _ _ _ _ []); [lia| | |].
  { intros i done' c' Hi. by apply jerk_row_built. }
  { solve_length. }
  unfold built, Eigen.Zero, uninitialized, zero_row. simpl.
  rewrite Nat.sub_0_r. done.
Qed.

Lemma build_constraints_rows (d_state : float * float * float)
    (delta_s : float) (d_bounds : list (float * float)) :
  d_bounds ≠ [] →
  let c := build_constraints d_state delta_s d_bounds in
  let rows := constraint_rows d_state delta_s d_bounds in
  affine_constraint c = row_coeffs <$> rows
  ∧ lower_bounds c = Some ∘ row_lower <$> rows
  ∧ upper_bounds c = Some ∘ row_upper <$> rows
  ∧ constraint_index c = kNumConstraint d_bounds
  ∧ out_of_bounds c = [].
Proof.
  intros Hne c rows.
  destruct (build_constraints_built d_state delta_s d_bounds Hne)
    as (HA & Hl & Hu & Hi & Ho).
  fold c rows in HA, Hl, Hu, Hi, Ho.
  assert (length rows = Z.to_nat (kNumConstraint d_bounds)) as Hlen
    by by apply length_constraint_rows.
  rewrite Hlen, Nat.sub_diag in HA, Hl, Hu. simpl in HA, Hl, Hu.
  rewrite app_nil_r in HA, Hl, Hu.
  repeat split; try done. rewrite Hi.
  assert (0 ≤ kNumConstraint d_bounds)
    by (unfold kNumConstraint, kNumParam; lia).
  lia.
Qed.


(** Where each group of rows sits in [constraint_rows]. *)

Lemma constraint_rows_jerk (d_state : float * float * float)
    (delta_s : float) (d_bounds : list (float * float)) (i : Z) :
  let num_var := Z.of_nat (length d_bounds) in
  0 ≤ i < num_var - 1 →
  constraint_rows d_state delta_s d_bounds !! Z.to_nat i
  = Some (jerk_spec delta_s num_var i).
Proof.
  intros num_var Hi. unfold constraint_rows. cbv zeta. fold num_var.
  do 6 (rewrite lookup_app_l by solve_length).
  rewrite list_lookup_fmap, lookup_seqZ_lt by lia. simpl.
  do 2 f_equal. lia.
Qed.

Lemma constraint_rows_velocity (d_state : float * float * float)
    (delta_s : float) (d_bounds : list (float * float)) (i : Z) :
  let num_var := Z.of_nat (length d_bounds) in
  0 ≤ i < num_var - 1 →
  constraint_rows d_state delta_s d_bounds !! Z.to_nat (num_var - 1 + i)
  = Some (velocity_spec delta_s num_var i).
Proof.
  intros num_var Hi. unfold constraint_rows. cbv zeta. fold num_var.
  do 5 (rewrite lookup_app_l by solve_length).
  rewrite lookup_app_r by solve_length.
  rewrite length_fmap, length_seqZ.
  rewrite list_lookup_fmap, lookup_seqZ_lt by lia. simpl.
  do 2 f_equal. lia.
Qed.

Lemma constraint_rows_position (d_state : float * float * float)
    (delta_s : float) (d_bounds : list (float * float)) (i : Z) :
  let num_var := Z.of_nat (length d_bounds) in
  0 ≤ i < num_var - 1 →
  constraint_rows d_state delta_s d_bounds
    !! Z.to_nat (2 * (num_var - 1) + i)
  = Some (position_spec delta_s num_var i).
Proof.
  intros num_var Hi. unfold constraint_rows. cbv zeta. fold num_var.
  do 4 (rewrite lookup_app_l by solve_length).
  rewrite lookup_app_r by solve_length.
  rewrite length_app, !length_fmap, !length_seqZ.
  rewrite list_lookup_fmap, lookup_seqZ_lt by lia. simpl.
  do 2 f_equal. lia.
Qed.

Lemma constraint_rows_box (d_state : float * float * float)
    (delta_s : float) (d_bounds : list (float * float)) (i : Z) :
  let num_var := Z.of_nat (length d_bounds) in
  1 ≤ num_var → 0 ≤ i < 3 * num_var →
  constraint_rows d_state delta_s d_bounds
    !! Z.to_nat (3 * (num_var - 1) + 3 + i)
  = Some (box_spec d_bounds num_var i).
Proof.
  intros num_var HN Hi. unfold constraint_rows. cbv zeta. fold num_var.
  rewrite lookup_app_r by solve_length.
  rewrite !length_app, !length_fmap, !length_seqZ. simpl.
  rewrite list_lookup_fmap, lookup_seqZ_lt by lia. simpl.
  do 2 f_equal. lia.
Qed.

Lemma constraint_rows_pin (d_state : float * float * float)
    (delta_s : float) (d_bounds : list (float * float)) :
  let num_var := Z.of_nat (length d_bounds) in
  let rows := constraint_rows d_state delta_s d_bounds in
  1 ≤ num_var →
  rows !! Z.to_nat (3 * (num_var - 1)) = Some (pin_spec num_var 0 d_state.1.1)
  ∧ rows !! Z.to_nat (3 * (num_var - 1) + 1)
    = Some (pin_spec num_var num_var d_state.1.2)
  ∧ rows !! Z.to_nat (3 * (num_var - 1) + 2)
    = Some (pin_spec num_var (2 * num_var) d_state.2).
Proof.
  intros num_var rows HN. unfold rows, constraint_rows. cbv zeta.
  fold num_var. split; [|split].
  - do 3 (rewrite lookup_app_l by solve_length).
    apply list_lookup_middle. solve_length.
  - do 2 (rewrite lookup_app_l by solve_length).
    apply list_lookup_middle. solve_length.
  - rewrite lookup_app_l by solve_length.
    apply list_lookup_middle. solve_length.
Qed.

(** Reading a coefficient of a matrix given by its rows. *)
Lemma coeff_rows (rows : list row) (r : row) (i j : Z) :
  rows !! Z.to_nat i = Some r → 0 ≤ i → 0 ≤ j →
  Eigen.coeff (row_coeffs <$> rows) i j = row_coeffs r !! Z.to_nat j.
Proof.
  intros Hr Hi Hj. unfold Eigen.coeff.
  rewrite (proj2 (Z.leb_le 0 i)), (proj2 (Z.leb_le 0 j)) by done.
  cbn [andb]. by rewrite list_lookup_fmap, Hr.
Qed.

Lemma length_zero_row (cols : Z) : length (zero_row cols) = Z.to_nat cols.
Proof. unfold zero_row. by rewrite length_replicate. Qed.

Lemma lookup_zero_row (cols j : Z) :
  0 ≤ j < cols → zero_row cols !! Z.to_nat j = Some 0%float.
Proof. intros Hj. unfold zero_row. apply lookup_replicate_2. lia. Qed.

(** Reads a cell of a zero row after some writes: the last write to the
    cell, or zero. *)
Ltac lookup_row :=
  repeat first
    [ rewrite list_lookup_insert_eq
        by (rewrite ?length_insert, length_zero_row; lia)
    | rewrite list_lookup_insert_ne by lia ];
  rewrite ?lookup_zero_row by lia.

(** The same, by cases on the column tests of the statement. *)
Ltac split_columns :=
  repeat match goal with
         | |- context [?a =? ?b] =>
             destruct (Z.eqb_spec a b) as [->|?]; [by lookup_row|]
         end;
  lookup_row.


(** ** The call as a whole *)

(** On a station sequence that is not empty the row-count check passes
    and the call runs to its [return true]. *)
Lemma optimize_returns (self : OsqpLateralQPOptimizer)
    (d_state : float * float * float) (delta_s : float)
    (d_bounds : list (float * float)) :
  d_bounds ≠ [] →
  optimize self d_state delta_s d_bounds
  = Returned
      (extract
         {| delta_s_ := delta_s;
            opt_d_ := opt_d_ self;
            opt_d_prime_ := opt_d_prime_ self;
            opt_d_pprime_ := opt_d_pprime_ self |}
         (Z.of_nat (length d_bounds))
         (osqp_solve
            (osqp_setup
               (assemble (CalculateKernel d_bounds) d_bounds
                  (build_constraints d_state delta_s d_bounds))
               settings)))
      true.
Proof.
  intros Hne. unfold optimize. cbv zeta.
  destruct (build_constraints_rows d_state delta_s d_bounds Hne)
    as (_ & _ & _ & -> & ->).
  by rewrite Z.eqb_refl.
Qed.

(** On the empty station sequence the matrix and the bound arrays are
    empty, the three loops over the stations do not run, and the first
    statement of the first pin row, [affine_constraint(0, 0) = 1.0],
    writes outside the matrix: the construction ends there. *)
Lemma build_constraints_empty (d_state : float * float * float)
    (delta_s : float) :
  build_constraints d_state delta_s []
  = {| affine_constraint := [];
       lower_bounds := [];
       upper_bounds := [];
       constraint_index := 0;
       out_of_bounds := [CoeffAt 0 0] |}.
Proof. reflexivity. Qed.

Lemma optimize_empty (self : OsqpLateralQPOptimizer)
    (d_state : float * float * float) (delta_s : float) :
  optimize self d_state delta_s [] = Undefined (CoeffAt 0 0).
Proof. reflexivity. Qed.

Lemma data_q_assemble (P : list float * list Z * list Z)
    (d_bounds : list (float * float)) (c : constraints) :
  data_q (assemble P d_bounds c) = linear_term d_bounds.
Proof.
  unfold assemble. destruct P as [[P_data P_indices] P_indptr].
  by destruct (DenseToCSCMatrix (affine_constraint c))
    as [[A_data A_indices] A_indptr].
Qed.

(** The three sequences after the extraction loop. *)
Lemma extract_loop (self : OsqpLateralQPOptimizer) (num_var : Z)
    (work : OSQPWorkspace) :
  0 ≤ num_var →
  for_range num_var
    (λ i self,
       {| delta_s_ := delta_s_ self;
          opt_d_ := opt_d_ self ++ [x_at work i];
          opt_d_prime_ := opt_d_prime_ self ++ [x_at work (i + num_var)];
          opt_d_pprime_ :=
            opt_d_pprime_ self ++ [x_at work (i + 2 * num_var)] |})
    self
  = {| delta_s_ := delta_s_ self;
       opt_d_ := opt_d_ self ++ (x_at work <$> seqZ 0 num_var);
       opt_d_prime_ :=
         opt_d_prime_ self
         ++ ((λ i, x_at work (i + num_var)) <$> seqZ 0 num_var);
       opt_d_pprime_ :=
         opt_d_pprime_ self
         ++ ((λ i, x_at work (i + 2 * num_var)) <$> seqZ 0 num_var) |}.
Proof.
  intros Hn.
  pose (Inv := λ (k : Z) (s : OsqpLateralQPOptimizer),
          s = {| delta_s_ := delta_s_ self;
                 opt_d_ := opt_d_ self ++ (x_at work <$> seqZ 0 k);
                 opt_d_prime_ :=
                   opt_d_prime_ self
                   ++ ((λ i, x_at work (i + num_var)) <$> seqZ 0 k);
                 opt_d_pprime_ :=
                   opt_d_pprime_ self
                   ++ ((λ i, x_at work (i + 2 * num_var)) <$> seqZ 0 k) |}).
  match goal with |- ?s = _ => enough (Inv num_var s) as Hinv by done end.
  apply for_range_ind; [done| |].
  - unfold Inv. simpl. rewrite !app_nil_r. by destruct self.
  - intros i s Hi Hs. unfold Inv in Hs. subst s. unfold Inv. simpl.
    rewrite seqZ_snoc, !fmap_app, !app_assoc by lia. done.
Qed.

Lemma extract_vectors (self : OsqpLateralQPOptimizer) (num_var : Z)
    (work : OSQPWorkspace) :
  1 ≤ num_var →
  extract self num_var work
  = {| delta_s_ := delta_s_ self;
       opt_d_ := opt_d_ self ++ (x_at work <$> seqZ 0 num_var);
       opt_d_prime_ :=
         <[Z.to_nat (num_var - 1) := 0.0%float]>
           (opt_d_prime_ self
            ++ ((λ i, x_at work (i + num_var)) <$> seqZ 0 num_var));
       opt_d_pprime_ :=
         <[Z.to_nat (num_var - 1) := 0.0%float]>
           (opt_d_pprime_ self
            ++ ((λ i, x_at work (i + 2 * num_var)) <$> seqZ 0 num_var)) |}.
Proof.
  intros Hn. unfold extract. rewrite extract_loop by lia. simpl.
  unfold vector_assign.
  rewrite !length_app, !length_fmap, !length_seqZ.
  rewrite (proj2 (Z.leb_le 0 (num_var - 1))) by lia.
  rewrite !(proj2 (Z.ltb_lt (num_var - 1) _)) by lia.
  done.
Qed.

(** Writing the cell [n - 1] of a vector of [n] entries sets its last
    entry. *)
Lemma last_insert_end (v : list float) (n : Z) (x : float) :
  1 ≤ n → length v = Z.to_nat n →
  last (<[Z.to_nat (n - 1) := x]> v) = Some x.
Proof.
  intros Hn Hlen. rewrite last_lookup, length_insert, Hlen.
  replace (Init.Nat.pred (Z.to_nat n)) with (Z.to_nat (n - 1)) by lia.
  apply list_lookup_insert_eq. lia.
Qed.

(** The extraction reads the workspace through its primal vector only. *)
Lemma extract_solution_x (self : OsqpLateralQPOptimizer) (num_var : Z)
    (work work' : OSQPWorkspace) :
  solution_x work' = solution_x work →
  extract self num_var work' = extract self num_var work.
Proof.
  intros Hx. unfold extract, x_at. by rewrite Hx.
Qed.


(** ** The properties of the specification *)

(** C1.  For a station sequence of length N >= 1 (and any initial state
    and any delta_s) the construction works on kNumParam = 3N columns
    and kNumConstraint = 3N + 3(N-1) + 3 rows, and when it finishes the
    running row counter equals kNumConstraint: the matrix has that many
    rows of 3N coefficients, no write has left it, and the row-count
    check lets the call run to its return. *)
Theorem constraint_row_count (self : OsqpLateralQPOptimizer)
    (d_state : float * float * float) (delta_s : float)
    (d_bounds : list (float * float)) :
  let N := Z.of_nat (length d_bounds) in
  let c := build_constraints d_state delta_s d_bounds in
  1 ≤ N →
  kNumParam d_bounds = 3 * N
  ∧ kNumConstraint d_bounds = 3 * N + 3 * (N - 1) + 3
  ∧ constraint_index c = kNumConstraint d_bounds
  ∧ Eigen.rows (affine_constraint c) = kNumConstraint d_bounds
  ∧ Forall (λ r, Z.of_nat (length r) = kNumParam d_bounds)
      (affine_constraint c)
  ∧ out_of_bounds c = []
  ∧ ∃ self', optimize self d_state delta_s d_bounds = Returned self' true.
Proof.
  intros N c HN.
  assert (d_bounds ≠ []) as Hne by (intros ->; simpl in N; lia).
  destruct (build_constraints_built d_state delta_s d_bounds Hne)
    as (HA & _ & _ & Hi & Ho).
  fold c in HA, Hi, Ho.
  pose proof (length_constraint_rows d_state delta_s d_bounds Hne) as Hlen.
  assert (kNumConstraint d_bounds = 3 * N + 3 * (N - 1) + 3) as Hk by done.
  repeat split; try done.
  - rewrite Hi, Hlen. lia.
  - unfold Eigen.rows. rewrite HA, length_app, length_fmap, length_replicate.
    lia.
  - rewrite HA, Hlen, Nat.sub_diag, app_nil_r.
    unfold constraint_rows. cbv zeta. fold N.
    rewrite !fmap_app, !Forall_app, !Forall_fmap, !Forall_seqZ. simpl.
    unfold kNumParam.
    repeat split; rewrite ?Forall_singleton; simpl; intros;
      rewrite ?length_insert, length_zero_row; unfold N; lia.
  - eexists. by apply optimize_returns.
Qed.

(** C2.  For N >= 2 and 0 <= i < N-1 the position-continuity row of
    station i (row 2(N-1) + i: the jerk rows and the velocity rows come
    first) has +1 at column i+1, -1 at column i, -delta_s at the
    first-derivative column N+i, -delta_s*delta_s/3 and
    -delta_s*delta_s/6 at the second-derivative columns 2N+i and 2N+i+1,
    0 everywhere else, and both of its bounds are 0. *)
Theorem position_continuity_row (d_state : float * float * float)
    (delta_s : float) (d_bounds : list (float * float)) (i : Z) :
  let N := Z.of_nat (length d_bounds) in
  let c := build_constraints d_state delta_s d_bounds in
  let r := 2 * (N - 1) + i in
  2 ≤ N → 0 ≤ i < N - 1 →
  (∀ j, 0 ≤ j < 3 * N →
     Eigen.coeff (affine_constraint c) r j
     = Some (if j =? i + 1 then 1.0%float
             else if j =? i then (-1.0)%float
             else if j =? N + i then (- delta_s)%float
             else if j =? 2 * N + i then (- delta_s * delta_s / 3.0)%float
             else if j =? 2 * N + i + 1
             then (- delta_s * delta_s / 6.0)%float
             else 0.0%float))
  ∧ lower_bounds c !! Z.to_nat r = Some (Some 0.0%float)
  ∧ upper_bounds c !! Z.to_nat r = Some (Some 0.0%float).
Proof.
  intros N c r HN Hi.
  assert (d_bounds ≠ []) as Hne by (intros ->; simpl in N; lia).
  destruct (build_constraints_rows d_state delta_s d_bounds Hne)
    as (HA & Hl & Hu & _ & _).
  fold c in HA, Hl, Hu.
  pose proof (constraint_rows_position d_state delta_s d_bounds i Hi) as Hrow.
  fold N r in Hrow.
  split; [|split].
  - intros j Hj. rewrite HA, (coeff_rows _ _ _ j Hrow) by (unfold r, N; lia).
    unfold position_spec. simpl.
    by split_columns.
  - by rewrite Hl, list_lookup_fmap, Hrow.
  - by rewrite Hu, list_lookup_fmap, Hrow.
Qed.


(** C3.  The kernel of [CalculateKernel] is a 3N x 3N matrix.  Its
    diagonal entry at index i is the double
    [2.0 * w_offset + 2.0 * w_obstacle_distance] for i < N (the specification's
    2 (w_offset + w_obstacle_distance), with the factor 2 on each weight
    as the code writes it), [2.0 * w_derivative] for N <= i < 2N and
    [2.0 * w_second_derivative] for 2N <= i < 3N; every entry off the
    diagonal is 0. *)
Theorem kernel_diagonal (d_bounds : list (float * float)) :
  let N := Z.of_nat (length d_bounds) in
  Eigen.rows (kernel d_bounds) = 3 * N
  ∧ Forall (λ r, Z.of_nat (length r) = 3 * N) (kernel d_bounds)
  ∧ ∀ i j, 0 ≤ i < 3 * N → 0 ≤ j < 3 * N →
      Eigen.coeff (kernel d_bounds) i j
      = Some (if i =? j then
                if i <? N then
                  (2.0 * FLAGS_weight_lateral_offset flags +
                   2.0 * FLAGS_weight_lateral_obstacle_distance flags)%float
                else if i <? 2 * N then
                  (2.0 * FLAGS_weight_lateral_derivative flags)%float
                else
                  (2.0 * FLAGS_weight_lateral_second_order_derivative flags)%float
              else 0.0%float).
Proof.
  intros N. rewrite kernel_rows. fold N. split; [|split].
  - unfold Eigen.rows. rewrite length_fmap, length_seqZ. lia.
  - rewrite Forall_fmap, Forall_seqZ. intros i Hi. simpl.
    unfold kernel_row. rewrite length_insert, length_zero_row. lia.
  - intros i j Hi Hj. unfold Eigen.coeff.
    rewrite (proj2 (Z.leb_le 0 i)), (proj2 (Z.leb_le 0 j)) by lia.
    cbn [andb]. rewrite list_lookup_fmap, lookup_seqZ_lt by lia. simpl.
    rewrite Z2Nat.id by lia. unfold kernel_row, kernel_weight.
    destruct (Z.eqb_spec i j) as [->|?]; by lookup_row.
Qed.

(** C4.  The linear term q has length 3N; q_i is
    -2 * w_obstacle_distance * (lower_i + upper_i) for i < N and 0 for
    N <= i < 3N; it is the [q] of the problem data handed to the
    solver. *)
Theorem linear_term_entries (d_state : float * float * float)
    (delta_s : float) (d_bounds : list (float * float)) :
  let N := Z.of_nat (length d_bounds) in
  let q :=
    data_q (assemble (CalculateKernel d_bounds) d_bounds
              (build_constraints d_state delta_s d_bounds)) in
  Z.of_nat (length q) = 3 * N
  ∧ (∀ i, 0 ≤ i < N →
       ∃ lower upper,
         d_bounds !! Z.to_nat i = Some (lower, upper)
         ∧ q !! Z.to_nat i
           = Some (Some (-2.0 * FLAGS_weight_lateral_obstacle_distance flags *
                         (lower + upper))%float))
  ∧ (∀ i, N ≤ i < 3 * N → q !! Z.to_nat i = Some (Some 0.0%float)).
Proof.
  intros N q. subst q N. rewrite data_q_assemble, linear_term_cells.
  split; [|split].
  - rewrite length_fmap, length_seqZ. lia.
  - intros i Hi.
    destruct (lookup_lt_is_Some_2 d_bounds (Z.to_nat i)) as [[lo hi] Hb];
      [lia|].
    exists lo, hi. split; [done|].
    rewrite list_lookup_fmap, lookup_seqZ_lt by lia. simpl.
    rewrite Z2Nat.id by lia. unfold linear_term_at.
    rewrite (proj2 (Z.ltb_lt _ _)) by lia. unfold bound_at.
    by rewrite Z.add_0_l, Hb.
  - intros i Hi.
    rewrite list_lookup_fmap, lookup_seqZ_lt by lia. simpl.
    rewrite Z2Nat.id by lia. unfold linear_term_at.
    by rewrite (proj2 (Z.ltb_ge _ _)) by lia.
Qed.

(** C5.  For N >= 2 and 0 <= i < N-1 the jerk-bound row of station i
    (row i) has -1 at the second-derivative column 2N+i and +1 at the
    second-derivative column 2N+i+1, 0 everywhere else, lower bound
    -J_max * delta_s and upper bound J_max * delta_s, where J_max is
    [FLAGS_lateral_third_order_derivative_max]. *)
Theorem jerk_bound_row (d_state : float * float * float)
    (delta_s : float) (d_bounds : list (float * float)) (i : Z) :
  let N := Z.of_nat (length d_bounds) in
  let c := build_constraints d_state delta_s d_bounds in
  let J_max := FLAGS_lateral_third_order_derivative_max flags in
  2 ≤ N → 0 ≤ i < N - 1 →
  (∀ j, 0 ≤ j < 3 * N →
     Eigen.coeff (affine_constraint c) i j
     = Some (if j =? 2 * N + i then (-1.0)%float
             else if j =? 2 * N + i + 1 then 1.0%float
             else 0.0%float))
  ∧ lower_bounds c !! Z.to_nat i = Some (Some (- J_max * delta_s)%float)
  ∧ upper_bounds c !! Z.to_nat i = Some (Some (J_max * delta_s)%float).
Proof.
  intros N c J_max HN Hi.
  assert (d_bounds ≠ []) as Hne by (intros ->; simpl in N; lia).
  destruct (build_constraints_rows d_state delta_s d_bounds Hne)
    as (HA & Hl & Hu & _ & _).
  fold c in HA, Hl, Hu.
  pose proof (constraint_rows_jerk d_state delta_s d_bounds i Hi) as Hrow.
  fold N in Hrow.
  split; [|split].
  - intros j Hj. rewrite HA, (coeff_rows _ _ _ j Hrow) by lia.
    unfold jerk_spec. simpl. by split_columns.
  - by rewrite Hl, list_lookup_fmap, Hrow.
  - by rewrite Hu, list_lookup_fmap, Hrow.
Qed.

(** C6.  For N >= 1 the last 3N rows are the box rows: the row of
    variable i (row kNumConstraint - 3N + i, 0 <= i < 3N) has 1 at column
    i and 0 everywhere else; its bounds are
    (d_bounds[i].first, d_bounds[i].second) for i < N and (-2.0, 2.0)
    for N <= i < 3N. *)
Theorem box_bound_row (d_state : float * float * float)
    (delta_s : float) (d_bounds : list (float * float)) (i : Z) :
  let N := Z.of_nat (length d_bounds) in
  let c := build_constraints d_state delta_s d_bounds in
  let r := kNumConstraint d_bounds - 3 * N + i in
  1 ≤ N → 0 ≤ i < 3 * N →
  (∀ j, 0 ≤ j < 3 * N →
     Eigen.coeff (affine_constraint c) r j
     = Some (if j =? i then 1.0%float else 0.0%float))
  ∧ (i < N →
     ∃ lower upper,
       d_bounds !! Z.to_nat i = Some (lower, upper)
       ∧ lower_bounds c !! Z.to_nat r = Some (Some lower)
       ∧ upper_bounds c !! Z.to_nat r = Some (Some upper))
  ∧ (N ≤ i →
     lower_bounds c !! Z.to_nat r = Some (Some (-2.0)%float)
     ∧ upper_bounds c !! Z.to_nat r = Some (Some 2.0%float)).
Proof.
  intros N c r HN Hi.
  assert (d_bounds ≠ []) as Hne by (intros ->; simpl in N; lia).
  destruct (build_constraints_rows d_state delta_s d_bounds Hne)
    as (HA & Hl & Hu & _ & _).
  fold c in HA, Hl, Hu.
  pose proof (constraint_rows_box d_state delta_s d_bounds i HN Hi) as Hrow.
  fold N in Hrow.
  assert (r = 3 * (N - 1) + 3 + i) as Hr
    by (unfold r, kNumConstraint, kNumParam; fold N; lia).
  rewrite <- Hr in Hrow.
  split; [|split].
  - intros j Hj. rewrite HA, (coeff_rows _ _ _ j Hrow) by lia.
    unfold box_spec. simpl. by split_columns.
  - intros HiN.
    destruct (lookup_lt_is_Some_2 d_bounds (Z.to_nat i)) as [[lo hi] Hb];
      [unfold N in HiN; lia|].
    exists lo, hi. split; [done|].
    rewrite Hl, Hu, !list_lookup_fmap, Hrow. simpl.
    rewrite (proj2 (Z.ltb_lt i N)) by lia. unfold bound_at. by rewrite Hb.
  - intros HiN. rewrite Hl, Hu, !list_lookup_fmap, Hrow. simpl.
    by rewrite (proj2 (Z.ltb_ge i N)) by lia.
Qed.


(** C7, as amended.  For a station sequence of length N >= 1, any
    initial state, any delta_s and any primal vector the solver returns:
    when the first-derivative and second-derivative output sequences are
    empty before the call (a fresh instance), [optimize] returns and the
    last entry of each of the two sequences is exactly 0.0. *)
Theorem terminal_entries_zero (self : OsqpLateralQPOptimizer)
    (d_state : float * float * float) (delta_s : float)
    (d_bounds : list (float * float)) :
  1 ≤ Z.of_nat (length d_bounds) →
  opt_d_prime_ self = [] → opt_d_pprime_ self = [] →
  ∃ self',
    optimize self d_state delta_s d_bounds = Returned self' true
    ∧ last (opt_d_prime_ self') = Some 0.0%float
    ∧ last (opt_d_pprime_ self') = Some 0.0%float.
Proof.
  intros HN Hp Hpp.
  assert (d_bounds ≠ []) as Hne by (intros ->; simpl in HN; lia).
  eexists. split; [by apply optimize_returns|].
  rewrite extract_vectors by done. simpl. rewrite Hp, Hpp. simpl.
  split; apply last_insert_end; try done;
    rewrite length_fmap, length_seqZ; lia.
Qed.


(** C10, as amended.  On the empty station sequence [kNumConstraint] is
    0 and the constraint matrix has no row, yet the initial-state pin
    rows are still written: the first pin-row write,
    [affine_constraint(0, 0) = 1.0], falls outside the matrix.  That is
    undefined behaviour: the call does not return, and it does not get
    to the row-count check. *)
Theorem empty_sequence_write_out_of_bounds (self : OsqpLateralQPOptimizer)
    (d_state : float * float * float) (delta_s : float) :
  let c := build_constraints d_state delta_s [] in
  kNumConstraint [] = 0
  ∧ Eigen.rows (Eigen.Zero (kNumConstraint []) (kNumParam [])) = 0
  ∧ Eigen.in_bounds (Eigen.Zero (kNumConstraint []) (kNumParam [])) 0 0
    = false
  ∧ out_of_bounds c = [CoeffAt 0 0]
  ∧ optimize self d_state delta_s [] = Undefined (CoeffAt 0 0).
Proof.
  intros c. unfold c. rewrite build_constraints_empty, optimize_empty.
  repeat split; reflexivity.
Qed.

(** ** Further properties of the construction *)

(** X1.  For N >= 2 and 0 <= i < N-1 the velocity-continuity row of
    station i (row N-1+i) has -1 at column N+i, +1 at column N+i+1,
    -0.5 * delta_s at the columns 2N+i and 2N+i+1, 0 everywhere else, and
    both of its bounds are 0. *)
Theorem velocity_continuity_row (d_state : float * float * float)
    (delta_s : float) (d_bounds : list (float * float)) (i : Z) :
  let N := Z.of_nat (length d_bounds) in
  let c := build_constraints d_state delta_s d_bounds in
  let r := N - 1 + i in
  2 ≤ N → 0 ≤ i < N - 1 →
  (∀ j, 0 ≤ j < 3 * N →
     Eigen.coeff (affine_constraint c) r j
     = Some (if j =? N + i then (-1.0)%float
             else if j =? N + i + 1 then 1.0%float
             else if j =? 2 * N + i then (-0.5 * delta_s)%float
             else if j =? 2 * N + i + 1 then (-0.5 * delta_s)%float
             else 0.0%float))
  ∧ lower_bounds c !! Z.to_nat r = Some (Some 0.0%float)
  ∧ upper_bounds c !! Z.to_nat r = Some (Some 0.0%float).
Proof.
  intros N c r HN Hi.
  assert (d_bounds ≠ []) as Hne by (intros ->; simpl in N; lia).
  destruct (build_constraints_rows d_state delta_s d_bounds Hne)
    as (HA & Hl & Hu & _ & _).
  fold c in HA, Hl, Hu.
  pose proof (constraint_rows_velocity d_state delta_s d_bounds i Hi) as Hrow.
  fold N r in Hrow.
  split; [|split].
  - intros j Hj. rewrite HA, (coeff_rows _ _ _ j Hrow) by (unfold r; lia).
    unfold velocity_spec. simpl. by split_columns.
  - by rewrite Hl, list_lookup_fmap, Hrow.
  - by rewrite Hu, list_lookup_fmap, Hrow.
Qed.

(** X2.  For N >= 1 the three rows after the continuity rows pin the
    initial state: row 3(N-1)+k has 1 at column k*N and 0 everywhere
    else, and both of its bounds are d_state[k]. *)
Theorem initial_state_pin_rows (d_state : float * float * float)
    (delta_s : float) (d_bounds : list (float * float)) :
  let N := Z.of_nat (length d_bounds) in
  let c := build_constraints d_state delta_s d_bounds in
  let r := 3 * (N - 1) in
  1 ≤ N →
  (∀ j, 0 ≤ j < 3 * N →
     Eigen.coeff (affine_constraint c) r j
     = Some (if j =? 0 then 1.0%float else 0.0%float)
     ∧ Eigen.coeff (affine_constraint c) (r + 1) j
       = Some (if j =? N then 1.0%float else 0.0%float)
     ∧ Eigen.coeff (affine_constraint c) (r + 2) j
       = Some (if j =? 2 * N then 1.0%float else 0.0%float))
  ∧ lower_bounds c !! Z.to_nat r = Some (Some d_state.1.1)
  ∧ upper_bounds c !! Z.to_nat r = Some (Some d_state.1.1)
  ∧ lower_bounds c !! Z.to_nat (r + 1) = Some (Some d_state.1.2)
  ∧ upper_bounds c !! Z.to_nat (r + 1) = Some (Some d_state.1.2)
  ∧ lower_bounds c !! Z.to_nat (r + 2) = Some (Some d_state.2)
  ∧ upper_bounds c !! Z.to_nat (r + 2) = Some (Some d_state.2).
Proof.
  intros N c r HN.
  assert (d_bounds ≠ []) as Hne by (intros ->; simpl in N; lia).
  destruct (build_constraints_rows d_state delta_s d_bounds Hne)
    as (HA & Hl & Hu & _ & _).
  fold c in HA, Hl, Hu.
  destruct (constraint_rows_pin d_state delta_s d_bounds HN)
    as (H0 & H1 & H2).
  fold N r in H0, H1, H2.
  split.
  - intros j Hj. rewrite HA.
    rewrite (coeff_rows _ _ _ j H0), (coeff_rows _ _ _ j H1),
      (coeff_rows _ _ _ j H2) by (unfold r; lia).
    unfold pin_spec. simpl. repeat split; by split_columns.
  - rewrite Hl, Hu, !list_lookup_fmap, H0, H1, H2. done.
Qed.

(** X3.  For N >= 1 every cell of the two bound arrays has been written
    when the construction finishes: the solver reads no uninitialised
    bound. *)
Theorem bounds_initialised (d_state : float * float * float)
    (delta_s : float) (d_bounds : list (float * float)) :
  let c := build_constraints d_state delta_s d_bounds in
  d_bounds ≠ [] →
  Z.of_nat (length (lower_bounds c)) = kNumConstraint d_bounds
  ∧ Z.of_nat (length (upper_bounds c)) = kNumConstraint d_bounds
  ∧ Forall is_Some (lower_bounds c)
  ∧ Forall is_Some (upper_bounds c).
Proof.
  intros c Hne.
  destruct (build_constraints_rows d_state delta_s d_bounds Hne)
    as (_ & Hl & Hu & _ & _).
  fold c in Hl, Hu.
  pose proof (length_constraint_rows d_state delta_s d_bounds Hne) as Hlen.
  assert (0 ≤ kNumConstraint d_bounds)
    by (unfold kNumConstraint, kNumParam; lia).
  rewrite Hl, Hu, !length_fmap, Hlen, !Forall_fmap.
  repeat split; try lia; apply Forall_true; intros x; by eexists.
Qed.

(** X4.  For N >= 1 and any instance, fresh or not, the call returns and
    the cells it has overwritten with 0.0 are the cells at index N-1 of
    the first-derivative and second-derivative sequences. *)
Theorem terminal_override_index (self : OsqpLateralQPOptimizer)
    (d_state : float * float * float) (delta_s : float)
    (d_bounds : list (float * float)) :
  let N := Z.of_nat (length d_bounds) in
  1 ≤ N →
  ∃ self',
    optimize self d_state delta_s d_bounds = Returned self' true
    ∧ opt_d_prime_ self' !! Z.to_nat (N - 1) = Some 0.0%float
    ∧ opt_d_pprime_ self' !! Z.to_nat (N - 1) = Some 0.0%float.
Proof.
  intros N HN.
  assert (d_bounds ≠ []) as Hne by (intros ->; simpl in N; lia).
  eexists. split; [by apply optimize_returns|].
  rewrite extract_vectors by done. simpl. fold N.
  split; apply list_lookup_insert_eq;
    rewrite length_app, length_fmap, length_seqZ; lia.
Qed.

(** ** The problem data and the extracted solution *)

(** A block of the primal vector, read cell by cell as the extraction loop
    does, is the corresponding slice of the vector. *)
Lemma x_at_block (work : OSQPWorkspace) (f : Z → float) (off n : Z) :
  (∀ i, f i = x_at work (i + off)) → 0 ≤ off → 0 ≤ n →
  (Z.to_nat (off + n) ≤ length (solution_x work))%nat →
  f <$> seqZ 0 n
  = take (Z.to_nat n) (drop (Z.to_nat off) (solution_x work)).
Proof.
  intros Hf Hoff Hn Hlen. apply list_eq. intros k.
  rewrite list_lookup_fmap.
  destruct (decide (Z.of_nat k < n)) as [Hk|Hk].
  - rewrite lookup_seqZ_lt, lookup_take_lt, lookup_drop by lia. simpl.
    rewrite Hf. unfold x_at.
    replace (Z.to_nat (0 + Z.of_nat k + off)) with (Z.to_nat off + k)%nat
      by lia.
    destruct (lookup_lt_is_Some_2 (solution_x work) (Z.to_nat off + k))
      as [x ->]; [lia|done].
  - rewrite lookup_seqZ_ge, lookup_take_ge by lia. done.
Qed.

(** Overwriting the last cell of a vector. *)
Lemma insert_last_cell (v : list float) (n : Z) (x : float) :
  1 ≤ n → length v = Z.to_nat n →
  <[Z.to_nat (n - 1) := x]> v = take (Z.to_nat (n - 1)) v ++ [x].
Proof.
  intros Hn Hlen. rewrite insert_take_drop by lia.
  rewrite (drop_ge v (S (Z.to_nat (n - 1)))) by lia. done.
Qed.

(** X5.  For a station sequence that is not empty the problem data handed
    to the solver is dimensionally consistent: n = 3N variables and
    m = 6N constraints, q has n entries, l and u have m entries each, P
    is declared n x n and A is declared m x n, and the number of stored
    entries declared for P and for A is the number of values the sparse
    conversion returned. *)
Theorem problem_data_dimensions (d_state : float * float * float)
    (delta_s : float) (d_bounds : list (float * float)) :
  let N := Z.of_nat (length d_bounds) in
  let data :=
    assemble (CalculateKernel d_bounds) d_bounds
      (build_constraints d_state delta_s d_bounds) in
  d_bounds ≠ [] →
  data_n data = 3 * N
  ∧ data_m data = 6 * N
  ∧ Z.of_nat (length (data_q data)) = data_n data
  ∧ Z.of_nat (length (data_l data)) = data_m data
  ∧ Z.of_nat (length (data_u data)) = data_m data
  ∧ (csc_m (data_P data), csc_n (data_P data)) = (data_n data, data_n data)
  ∧ (csc_m (data_A data), csc_n (data_A data)) = (data_m data, data_n data)
  ∧ csc_nzmax (data_P data) = Z.of_nat (length (csc_x (data_P data)))
  ∧ csc_nzmax (data_A data) = Z.of_nat (length (csc_x (data_A data))).
Proof.
  intros N data Hne.
  assert (length d_bounds ≠ 0%nat) by by destruct d_bounds.
  destruct (build_constraints_rows d_state delta_s d_bounds Hne)
    as (HA & Hl & Hu & _ & _).
  pose proof (length_constraint_rows d_state delta_s d_bounds Hne) as Hlen.
  assert (kNumConstraint d_bounds = 6 * N) as Hk
    by (unfold kNumConstraint, kNumParam; fold N; lia).
  unfold data, assemble.
  destruct (CalculateKernel d_bounds) as [[P_data P_indices] P_indptr].
  destruct (DenseToCSCMatrix _) as [[A_data A_indices] A_indptr].
  simpl. unfold Eigen.rows.
  rewrite HA, Hl, Hu, linear_term_cells, !length_fmap, length_seqZ, Hlen, Hk.
  unfold kNumParam. fold N. repeat split; lia.
Qed.

(** X6.  On a fresh instance and a station sequence that is not empty,
    when the solver's primal vector has its 3N entries, the call stores
    delta_s and splits the vector into its three blocks: the offsets are
    the first N entries; the first derivatives are entries N .. 2N-2
    followed by 0.0; the second derivatives are entries 2N .. 3N-2
    followed by 0.0.  The entries 2N-1 and 3N-1 of the primal vector are
    dropped. *)
Theorem solution_blocks (self : OsqpLateralQPOptimizer)
    (d_state : float * float * float) (delta_s : float)
    (d_bounds : list (float * float)) :
  let N := length d_bounds in
  let work :=
    osqp_solve
      (osqp_setup
         (assemble (CalculateKernel d_bounds) d_bounds
            (build_constraints d_state delta_s d_bounds))
         settings) in
  d_bounds ≠ [] →
  opt_d_ self = [] → opt_d_prime_ self = [] → opt_d_pprime_ self = [] →
  length (solution_x work) = (3 * N)%nat →
  ∃ self',
    optimize self d_state delta_s d_bounds = Returned self' true
    ∧ delta_s_ self' = delta_s
    ∧ opt_d_ self' = take N (solution_x work)
    ∧ opt_d_prime_ self'
      = take (N - 1) (drop N (solution_x work)) ++ [0.0%float]
    ∧ opt_d_pprime_ self'
      = take (N - 1) (drop (2 * N) (solution_x work)) ++ [0.0%float].
Proof.
  intros N work Hne Hd Hp Hpp Hlen.
  assert (N ≠ 0%nat) by (unfold N; by destruct d_bounds).
  eexists. split; [by apply optimize_returns|]. fold work.
  rewrite extract_vectors by lia. simpl. rewrite Hd, Hp, Hpp. simpl.
  fold N.
  rewrite (x_at_block work _ 0 (Z.of_nat N)), (x_at_block work _ (Z.of_nat N)),
    (x_at_block work _ (2 * Z.of_nat N)); try lia;
    try (intros i; f_equal; lia).
  rewrite !insert_last_cell by (rewrite ?length_take, ?length_drop; lia).
  rewrite !take_take.
  replace (Z.to_nat 0) with 0%nat by done.
  replace (Z.to_nat (Z.of_nat N)) with N by lia.
  replace (Z.to_nat (2 * Z.of_nat N)) with (2 * N)%nat by lia.
  replace (Z.to_nat (Z.of_nat N - 1) `min` N)%nat with (N - 1)%nat by lia.
  done.
Qed.

(** X7.  A call on an instance that already holds results keeps them:
    the earlier offsets stay in front of the new ones, and every earlier
    first-derivative and second-derivative entry stays where it was,
    except the one at index N-1, which the terminal override hits. *)
Theorem earlier_entries_kept (self : OsqpLateralQPOptimizer)
    (d_state : float * float * float) (delta_s : float)
    (d_bounds : list (float * float)) :
  let N := length d_bounds in
  d_bounds ≠ [] →
  ∃ self',
    optimize self d_state delta_s d_bounds = Returned self' true
    ∧ take (length (opt_d_ self)) (opt_d_ self') = opt_d_ self
    ∧ (∀ k, k ≠ (N - 1)%nat → (k < length (opt_d_prime_ self))%nat →
         opt_d_prime_ self' !! k = opt_d_prime_ self !! k)
    ∧ (∀ k, k ≠ (N - 1)%nat → (k < length (opt_d_pprime_ self))%nat →
         opt_d_pprime_ self' !! k = opt_d_pprime_ self !! k).
Proof.
  intros N Hne.
  assert (N ≠ 0%nat) by (unfold N; by destruct d_bounds).
  eexists. split; [by apply optimize_returns|].
  rewrite extract_vectors by lia. simpl. fold N.
  split; [by rewrite take_app_length|].
  split; intros k Hk Hlt;
    rewrite list_lookup_insert_ne by lia; by rewrite lookup_app_l.
Qed.

(** X8.  The two matrices depend on the inputs through the number of
    stations and the spacing only: the kernel is the same for any two
    station sequences of one length, and so is the constraint matrix,
    whatever the initial states and the bound values.  The initial state
    and the bound values reach the solver through q, l and u alone. *)
Theorem matrices_depend_on_sizes_only
    (d_state d_state' : float * float * float) (delta_s : float)
    (d_bounds d_bounds' : list (float * float)) :
  length d_bounds = length d_bounds' →
  kernel d_bounds = kernel d_bounds'
  ∧ affine_constraint (build_constraints d_state delta_s d_bounds)
    = affine_constraint (build_constraints d_state' delta_s d_bounds').
Proof.
  intros Hlen. split; [by rewrite !kernel_rows, Hlen|].
  destruct (decide (d_bounds = [])) as [->|Hne].
  { destruct d_bounds'; [|done]. by rewrite !build_constraints_empty. }
  assert (d_bounds' ≠ []) as Hne' by (intros ->; by destruct d_bounds).
  destruct (build_constraints_rows d_state delta_s d_bounds Hne) as (-> & _).
  destruct (build_constraints_rows d_state' delta_s d_bounds' Hne')
    as (-> & _).
  unfold constraint_rows. cbv zeta. rewrite Hlen.
  rewrite !fmap_app, <- !list_fmap_compose. done.
Qed.

(** X9.  For N >= 1 the rows N-1 .. 3N-1 (velocity continuity, position
    continuity and the three pins) are equality constraints: the lower
    and the upper bound of each hold the same value. *)
Theorem equality_rows (d_state : float * float * float)
    (delta_s : float) (d_bounds : list (float * float)) (r : Z) :
  let N := Z.of_nat (length d_bounds) in
  let c := build_constraints d_state delta_s d_bounds in
  1 ≤ N → N - 1 ≤ r < 3 * N →
  ∃ v, lower_bounds c !! Z.to_nat r = Some (Some v)
       ∧ upper_bounds c !! Z.to_nat r = Some (Some v).
Proof.
  intros N c HN Hr.
  assert (d_bounds ≠ []) as Hne by (intros ->; simpl in N; lia).
  destruct (build_constraints_rows d_state delta_s d_bounds Hne)
    as (_ & Hl & Hu & _ & _).
  fold c in Hl, Hu. rewrite Hl, Hu, !list_lookup_fmap.
  destruct (constraint_rows_pin d_state delta_s d_bounds HN)
    as (H0 & H1 & H2).
  fold N in H0, H1, H2.
  destruct (decide (r < 2 * (N - 1))) as [Hv|Hv].
  { assert (0 ≤ r - (N - 1) < N - 1) as Hi by lia.
    pose proof (constraint_rows_velocity d_state delta_s d_bounds _ Hi)
      as Hrow.
    fold N in Hrow. replace (N - 1 + (r - (N - 1))) with r in Hrow by lia.
    rewrite Hrow. by eexists. }
  destruct (decide (r < 3 * (N - 1))) as [Hp|Hp].
  { assert (0 ≤ r - 2 * (N - 1) < N - 1) as Hi by lia.
    pose proof (constraint_rows_position d_state delta_s d_bounds _ Hi)
      as Hrow.
    fold N in Hrow.
    replace (2 * (N - 1) + (r - 2 * (N - 1))) with r in Hrow by lia.
    rewrite Hrow. by eexists. }
  assert (r = 3 * (N - 1) ∨ r = 3 * (N - 1) + 1 ∨ r = 3 * (N - 1) + 2)
    as [->|[->| ->]] by lia.
  - rewrite H0. by eexists.
  - rewrite H1. by eexists.
  - rewrite H2. by eexists.
Qed.

(** X10.  With a single station there is no continuity row and the
    spacing plays no part: the six rows are the three pins followed by
    the three box rows, on the same three variables, for every initial
    state, spacing and bound pair. *)
Theorem single_station_constraints (d_state : float * float * float)
    (delta_s : float) (bound : float * float) :
  let c := build_constraints d_state delta_s [bound] in
  affine_constraint c
  = [[1.0; 0.0; 0.0]; [0.0; 1.0; 0.0]; [0.0; 0.0; 1.0];
     [1.0; 0.0; 0.0]; [0.0; 1.0; 0.0]; [0.0; 0.0; 1.0]]%float
  ∧ lower_bounds c
    = [Some d_state.1.1; Some d_state.1.2; Some d_state.2;
       Some bound.1; Some (-2.0)%float; Some (-2.0)%float]
  ∧ upper_bounds c
    = [Some d_state.1.1; Some d_state.1.2; Some d_state.2;
       Some bound.2; Some 2.0%float; Some 2.0%float]
  ∧ constraint_index c = 6
  ∧ out_of_bounds c = [].
Proof. intros c. unfold c. repeat split; reflexivity. Qed.

(** The extraction reads the first [3 * num_var] cells of the primal
    vector and nothing else of the workspace. *)
Lemma x_at_take (work : OSQPWorkspace) (n i : Z) :
  0 ≤ i < n →
  x_at work i
  = default 0%float (take (Z.to_nat n) (solution_x work) !! Z.to_nat i).
Proof. intros Hi. unfold x_at. by rewrite lookup_take_lt by lia. Qed.

Lemma extract_prefix (self : OsqpLateralQPOptimizer) (num_var : Z)
    (work work' : OSQPWorkspace) :
  take (Z.to_nat (3 * num_var)) (solution_x work')
  = take (Z.to_nat (3 * num_var)) (solution_x work) →
  extract self num_var work' = extract self num_var work.
Proof.
  intros Hx. destruct (decide (1 ≤ num_var)) as [Hn|Hn].
  - assert (∀ i, 0 ≤ i < 3 * num_var → x_at work' i = x_at work i) as Hat.
    { intros i Hi. by rewrite !(x_at_take _ (3 * num_var)), Hx by done. }
    rewrite !extract_vectors by done.
    assert (∀ off, 0 ≤ off ≤ 2 * num_var →
              (λ i, x_at work' (i + off)) <$> seqZ 0 num_var
              = (λ i, x_at work (i + off)) <$> seqZ 0 num_var) as Hblock.
    { intros off Hoff. apply list_fmap_ext. intros k i Hk.
      apply lookup_seqZ in Hk. apply Hat. lia. }
    rewrite (Hblock num_var), (Hblock (2 * num_var)) by lia.
    f_equal. f_equal. apply list_fmap_ext. intros k i Hk.
    apply lookup_seqZ in Hk. apply Hat. lia.
  - unfold extract, for_range. by rewrite seqZ_nil by lia.
Qed.

(** X12.  The row-count check never fails.  A call on a station sequence
    that is not empty returns true; a call on the empty one ends at the
    first pin-row write, outside the empty matrix, before the check. *)
Theorem optimize_outcomes (self : OsqpLateralQPOptimizer)
    (d_state : float * float * float) (delta_s : float)
    (d_bounds : list (float * float)) :
  (d_bounds ≠ []
   ∧ ∃ self', optimize self d_state delta_s d_bounds = Returned self' true)
  ∨ (d_bounds = []
     ∧ optimize self d_state delta_s d_bounds = Undefined (CoeffAt 0 0)).
Proof.
  destruct (decide (d_bounds = [])) as [->|Hne].
  - right. split; [done|]. apply optimize_empty.
  - left. split; [done|]. eexists. by apply optimize_returns.
Qed.

End Optimizer.

(** C8, as amended.  On a station sequence that is not empty [optimize]
    returns true whatever the solver reports, and the status is not
    inspected: two solvers that return the same primal vector, with any
    two statuses, give the same outcome.  (On the empty sequence the call
    ends at the first pin-row write, before the solver is reached.) *)
Theorem optimize_ignores_solver_status (flags : PlanningFlags)
    (DenseToCSCMatrix : Eigen.MatrixXd → list float * list Z * list Z)
    (osqp_setup : OSQPData → OSQPSettings → OSQPWorkspace)
    (osqp_solve : OSQPWorkspace → OSQPWorkspace)
    (self : OsqpLateralQPOptimizer) (d_state : float * float * float)
    (delta_s : float) (d_bounds : list (float * float)) :
  d_bounds ≠ [] →
  (∃ self',
     optimize flags DenseToCSCMatrix osqp_setup osqp_solve
       self d_state delta_s d_bounds
     = Returned self' true)
  ∧ ∀ osqp_solve' : OSQPWorkspace → OSQPWorkspace,
      (∀ work, solution_x (osqp_solve' work) = solution_x (osqp_solve work)) →
      optimize flags DenseToCSCMatrix osqp_setup osqp_solve'
        self d_state delta_s d_bounds
      = optimize flags DenseToCSCMatrix osqp_setup osqp_solve
          self d_state delta_s d_bounds.
Proof.
  intros Hne. split.
  - eexists. by apply optimize_returns.
  - intros osqp_solve' Hx. rewrite !optimize_returns by done.
    f_equal. by apply extract_solution_x.
Qed.

(** ** The properties on the concrete configuration *)

Lemma constraint_row_count_witness :
  1 ≤ Z.of_nat (length sample_bounds)
  ∧ (kNumParam sample_bounds = 9
     ∧ kNumConstraint sample_bounds = 18
     ∧ constraint_index
         (build_constraints sample_flags sample_state 1.0%float sample_bounds)
       = 18
     ∧ Eigen.rows
         (affine_constraint
            (build_constraints sample_flags sample_state 1.0%float
               sample_bounds))
       = 18
     ∧ Forall (λ r, Z.of_nat (length r) = 9)
         (affine_constraint
            (build_constraints sample_flags sample_state 1.0%float
               sample_bounds))
     ∧ out_of_bounds
         (build_constraints sample_flags sample_state 1.0%float sample_bounds)
       = []
     ∧ ∃ self',
         optimize sample_flags sample_DenseToCSCMatrix sample_osqp_setup
           sample_osqp_solve fresh sample_state 1.0%float sample_bounds
         = Returned self' true).
Proof.
  split; [simpl; lia|].
  apply (constraint_row_count sample_flags sample_DenseToCSCMatrix
           sample_osqp_setup sample_osqp_solve fresh sample_state 1.0%float
           sample_bounds).
  simpl; lia.
Defined.

Lemma position_continuity_row_witness :
  2 ≤ Z.of_nat (length sample_bounds)
  ∧ 0 ≤ 1 < Z.of_nat (length sample_bounds) - 1
  ∧ ((∀ j, 0 ≤ j < 9 →
        Eigen.coeff
          (affine_constraint
             (build_constraints sample_flags sample_state 0.5%float
                sample_bounds)) 5 j
        = Some (if j =? 2 then 1.0%float
                else if j =? 1 then (-1.0)%float
                else if j =? 4 then (- 0.5)%float
                else if j =? 7 then (- 0.5 * 0.5 / 3.0)%float
                else if j =? 8 then (- 0.5 * 0.5 / 6.0)%float
                else 0.0%float))
     ∧ lower_bounds
         (build_constraints sample_flags sample_state 0.5%float sample_bounds)
         !! 5%nat = Some (Some 0.0%float)
     ∧ upper_bounds
         (build_constraints sample_flags sample_state 0.5%float sample_bounds)
         !! 5%nat = Some (Some 0.0%float)).
Proof.
  split; [simpl; lia|]. split; [simpl; lia|].
  apply (position_continuity_row sample_flags sample_state 0.5%float
           sample_bounds 1); simpl; lia.
Defined.

Lemma kernel_diagonal_witness :
  Eigen.rows (kernel sample_flags sample_bounds) = 9
  ∧ Eigen.coeff (kernel sample_flags sample_bounds) 1 1
    = Some (2.0 * (1.0 + 0.5))%float
  ∧ Eigen.coeff (kernel sample_flags sample_bounds) 4 4
    = Some (2.0 * 500.0)%float
  ∧ Eigen.coeff (kernel sample_flags sample_bounds) 7 7
    = Some (2.0 * 1000.0)%float
  ∧ Eigen.coeff (kernel sample_flags sample_bounds) 1 4 = Some 0.0%float.
Proof.
  destruct (kernel_diagonal sample_flags sample_bounds)
    as (Hrows & _ & Hcoeff).
  split; [exact Hrows|].
  split; [exact (Hcoeff 1 1 ltac:(simpl; lia) ltac:(simpl; lia))|].
  split; [exact (Hcoeff 4 4 ltac:(simpl; lia) ltac:(simpl; lia))|].
  split; [exact (Hcoeff 7 7 ltac:(simpl; lia) ltac:(simpl; lia))|].
  exact (Hcoeff 1 4 ltac:(simpl; lia) ltac:(simpl; lia)).
Defined.

Lemma jerk_bound_row_witness :
  2 ≤ Z.of_nat (length sample_bounds)
  ∧ 0 ≤ 1 < Z.of_nat (length sample_bounds) - 1
  ∧ ((∀ j, 0 ≤ j < 9 →
        Eigen.coeff
          (affine_constraint
             (build_constraints sample_flags sample_state 0.5%float
                sample_bounds)) 1 j
        = Some (if j =? 7 then (-1.0)%float
                else if j =? 8 then 1.0%float
                else 0.0%float))
     ∧ lower_bounds
         (build_constraints sample_flags sample_state 0.5%float sample_bounds)
         !! 1%nat = Some (Some (- 0.25 * 0.5)%float)
     ∧ upper_bounds
         (build_constraints sample_flags sample_state 0.5%float sample_bounds)
         !! 1%nat = Some (Some (0.25 * 0.5)%float)).
Proof.
  split; [simpl; lia|]. split; [simpl; lia|].
  apply (jerk_bound_row sample_flags sample_state 0.5%float
           sample_bounds 1); simpl; lia.
Defined.

Lemma box_bound_row_witness :
  1 ≤ Z.of_nat (length sample_bounds)
  ∧ 0 ≤ 4 < 3 * Z.of_nat (length sample_bounds)
  ∧ ((∀ j, 0 ≤ j < 9 →
        Eigen.coeff
          (affine_constraint
             (build_constraints sample_flags sample_state 0.5%float
                sample_bounds)) 13 j
        = Some (if j =? 4 then 1.0%float else 0.0%float))
     ∧ (4 < 3 →
        ∃ lower upper,
          sample_bounds !! 4%nat = Some (lower, upper)
          ∧ lower_bounds
              (build_constraints sample_flags sample_state 0.5%float
                 sample_bounds) !! 13%nat = Some (Some lower)
          ∧ upper_bounds
              (build_constraints sample_flags sample_state 0.5%float
                 sample_bounds) !! 13%nat = Some (Some upper))
     ∧ (3 ≤ 4 →
        lower_bounds
          (build_constraints sample_flags sample_state 0.5%float
             sample_bounds) !! 13%nat = Some (Some (-2.0)%float)
        ∧ upper_bounds
            (build_constraints sample_flags sample_state 0.5%float
               sample_bounds) !! 13%nat = Some (Some 2.0%float))).
Proof.
  split; [simpl; lia|]. split; [simpl; lia|].
  apply (box_bound_row sample_flags sample_state 0.5%float
           sample_bounds 4); simpl; lia.
Defined.

Lemma terminal_entries_zero_witness :
  1 ≤ Z.of_nat (length sample_bounds)
  ∧ opt_d_prime_ fresh = []
  ∧ opt_d_pprime_ fresh = []
  ∧ ∃ self',
      optimize sample_flags sample_DenseToCSCMatrix sample_osqp_setup
        sample_osqp_solve fresh sample_state 1.0%float sample_bounds
      = Returned self' true
      ∧ last (opt_d_prime_ self') = Some 0.0%float
      ∧ last (opt_d_pprime_ self') = Some 0.0%float.
Proof.
  split; [simpl; lia|]. split; [reflexivity|]. split; [reflexivity|].
  apply (terminal_entries_zero sample_flags sample_DenseToCSCMatrix
           sample_osqp_setup sample_osqp_solve fresh sample_state 1.0%float
           sample_bounds); [simpl; lia|reflexivity|reflexivity].
Defined.

Lemma optimize_ignores_solver_status_witness :
  sample_bounds ≠ []
  ∧ (∃ self',
       optimize sample_flags sample_DenseToCSCMatrix sample_osqp_setup
         sample_osqp_solve fresh sample_state 1.0%float sample_bounds
       = Returned self' true)
  ∧ ∀ osqp_solve' : OSQPWorkspace → OSQPWorkspace,
      (∀ work,
         solution_x (osqp_solve' work) = solution_x (sample_osqp_solve work)) →
      optimize sample_flags sample_DenseToCSCMatrix sample_osqp_setup
        osqp_solve' fresh sample_state 1.0%float sample_bounds
      = optimize sample_flags sample_DenseToCSCMatrix sample_osqp_setup
          sample_osqp_solve fresh sample_state 1.0%float sample_bounds.
Proof.
  split; [discriminate|].
  apply (optimize_ignores_solver_status sample_flags sample_DenseToCSCMatrix
           sample_osqp_setup sample_osqp_solve fresh sample_state 1.0%float
           sample_bounds).
  discriminate.
Defined.

(** C7 as stated fails on an instance that is used twice: the second
    call appends three more entries and overwrites the cells at index
    N - 1 = 2 again, so the last entries (index 5) keep what the solver
    returned, here 1.0. *)
Lemma terminal_entries_kept_on_reuse :
  ∃ self1 self2,
    optimize sample_flags sample_DenseToCSCMatrix sample_osqp_setup
      sample_osqp_solve fresh sample_state 1.0%float sample_bounds
    = Returned self1 true
    ∧ optimize sample_flags sample_DenseToCSCMatrix sample_osqp_setup
        sample_osqp_solve self1 sample_state 1.0%float sample_bounds
      = Returned self2 true
    ∧ opt_d_prime_ self2 = [1.0; 1.0; 0.0; 1.0; 1.0; 1.0]%float
    ∧ opt_d_pprime_ self2 = [1.0; 1.0; 0.0; 1.0; 1.0; 1.0]%float
    ∧ last (opt_d_prime_ self2) ≠ Some 0.0%float
    ∧ last (opt_d_pprime_ self2) ≠ Some 0.0%float.
Proof.
  eexists
    {| delta_s_ := 1.0%float;
       opt_d_ := [1.0; 1.0; 1.0]%float;
       opt_d_prime_ := [1.0; 1.0; 0.0]%float;
       opt_d_pprime_ := [1.0; 1.0; 0.0]%float |}.
  eexists
    {| delta_s_ := 1.0%float;
       opt_d_ := [1.0; 1.0; 1.0; 1.0; 1.0; 1.0]%float;
       opt_d_prime_ := [1.0; 1.0; 0.0; 1.0; 1.0; 1.0]%float;
       opt_d_pprime_ := [1.0; 1.0; 0.0; 1.0; 1.0; 1.0]%float |}.
  assert (Some 1.0%float ≠ Some 0.0%float) as Hne.
  { intros H. apply (f_equal (λ o, default false ((λ x, x =? 1.0)%float <$> o)))
      in H. vm_compute in H. discriminate. }
  repeat split; try (vm_compute; reflexivity); exact Hne.
Qed.

(** C8 as stated fails on the empty station sequence: the call does not
    return true, it ends at the first pin-row write. *)
Lemma optimize_empty_does_not_return :
  optimize sample_flags sample_DenseToCSCMatrix sample_osqp_setup
    sample_osqp_solve fresh sample_state 1.0%float []
  = Undefined (CoeffAt 0 0)
  ∧ ∀ self',
      optimize sample_flags sample_DenseToCSCMatrix sample_osqp_setup
        sample_osqp_solve fresh sample_state 1.0%float []
      ≠ Returned self' true.
Proof.
  split; [reflexivity|]. intros self'. rewrite optimize_empty. discriminate.
Qed.

(** C10 as stated fails where it lets the row-count check fire: on the
    empty station sequence the call ends at the first pin-row write, the
    row counter has not moved, and the check is not reached. *)
Lemma empty_sequence_check_not_reached :
  optimize sample_flags sample_DenseToCSCMatrix sample_osqp_setup
    sample_osqp_solve fresh sample_state 1.0%float []
  = Undefined (CoeffAt 0 0)
  ∧ constraint_index (build_constraints sample_flags sample_state 1.0%float [])
    ≠ 3
  ∧ ∀ index expected,
      optimize sample_flags sample_DenseToCSCMatrix sample_osqp_setup
        sample_osqp_solve fresh sample_state 1.0%float []
      ≠ CheckFailed index expected.
Proof.
  split; [reflexivity|]. split; [rewrite build_constraints_empty; done|].
  intros index expected. rewrite optimize_empty. discriminate.
Qed.

Lemma velocity_continuity_row_witness :
  2 ≤ Z.of_nat (length sample_bounds)
  ∧ 0 ≤ 1 < Z.of_nat (length sample_bounds) - 1
  ∧ ((∀ j, 0 ≤ j < 9 →
        Eigen.coeff
          (affine_constraint
             (build_constraints sample_flags sample_state 0.5%float
                sample_bounds)) 3 j
        = Some (if j =? 4 then (-1.0)%float
                else if j =? 5 then 1.0%float
                else if j =? 7 then (-0.5 * 0.5)%float
                else if j =? 8 then (-0.5 * 0.5)%float
                else 0.0%float))
     ∧ lower_bounds
         (build_constraints sample_flags sample_state 0.5%float sample_bounds)
         !! 3%nat = Some (Some 0.0%float)
     ∧ upper_bounds
         (build_constraints sample_flags sample_state 0.5%float sample_bounds)
         !! 3%nat = Some (Some 0.0%float)).
Proof.
  split; [simpl; lia|]. split; [simpl; lia|].
  apply (velocity_continuity_row sample_flags sample_state 0.5%float
           sample_bounds 1); simpl; lia.
Defined.

Lemma initial_state_pin_rows_witness :
  1 ≤ Z.of_nat (length sample_bounds)
  ∧ lower_bounds
      (build_constraints sample_flags sample_state 0.5%float sample_bounds)
      !! 6%nat = Some (Some 0.0%float)
  ∧ upper_bounds
      (build_constraints sample_flags sample_state 0.5%float sample_bounds)
      !! 8%nat = Some (Some 0.0%float).
Proof.
  assert (1 ≤ Z.of_nat (length sample_bounds)) as HN by (simpl; lia).
  split; [exact HN|].
  destruct (initial_state_pin_rows sample_flags sample_state 0.5%float
              sample_bounds HN) as (_ & H6 & _ & _ & _ & _ & H8).
  split; [exact H6|exact H8].
Defined.

Lemma bounds_initialised_witness :
  sample_bounds ≠ []
  ∧ Z.of_nat
      (length
         (lower_bounds
            (build_constraints sample_flags sample_state 0.5%float
               sample_bounds))) = 18
  ∧ Z.of_nat
      (length
         (upper_bounds
            (build_constraints sample_flags sample_state 0.5%float
               sample_bounds))) = 18
  ∧ Forall is_Some
      (lower_bounds
         (build_constraints sample_flags sample_state 0.5%float sample_bounds))
  ∧ Forall is_Some
      (upper_bounds
         (build_constraints sample_flags sample_state 0.5%float sample_bounds)).
Proof.
  split; [discriminate|].
  apply (bounds_initialised sample_flags sample_state 0.5%float sample_bounds).
  discriminate.
Defined.

Lemma terminal_override_index_witness :
  1 ≤ Z.of_nat (length sample_bounds)
  ∧ ∃ self',
      optimize sample_flags sample_DenseToCSCMatrix sample_osqp_setup
        sample_osqp_solve fresh sample_state 1.0%float sample_bounds
      = Returned self' true
      ∧ opt_d_prime_ self' !! 2%nat = Some 0.0%float
      ∧ opt_d_pprime_ self' !! 2%nat = Some 0.0%float.
Proof.
  split; [simpl; lia|].
  apply (terminal_override_index sample_flags sample_DenseToCSCMatrix
           sample_osqp_setup sample_osqp_solve fresh sample_state 1.0%float
           sample_bounds).
  simpl; lia.
Defined.

(** X11.  Of everything the solver leaves in its workspace the call
    reads the first 3N entries of the primal vector only: two solvers
    whose primal vectors agree on these entries give the same outcome,
    whatever else the vectors hold and whatever statuses are reported. *)
Theorem only_primal_prefix_read (flags : PlanningFlags)
    (DenseToCSCMatrix : Eigen.MatrixXd → list float * list Z * list Z)
    (osqp_setup : OSQPData → OSQPSettings → OSQPWorkspace)
    (osqp_solve osqp_solve' : OSQPWorkspace → OSQPWorkspace)
    (self : OsqpLateralQPOptimizer) (d_state : float * float * float)
    (delta_s : float) (d_bounds : list (float * float)) :
  let started :=
    osqp_setup
      (assemble flags DenseToCSCMatrix
         (CalculateKernel flags DenseToCSCMatrix d_bounds) d_bounds
         (build_constraints flags d_state delta_s d_bounds))
      (settings flags) in
  take (3 * length d_bounds) (solution_x (osqp_solve' started))
  = take (3 * length d_bounds) (solution_x (osqp_solve started)) →
  optimize flags DenseToCSCMatrix osqp_setup osqp_solve'
    self d_state delta_s d_bounds
  = optimize flags DenseToCSCMatrix osqp_setup osqp_solve
      self d_state delta_s d_bounds.
Proof.
  intros started Hx. destruct (decide (d_bounds = [])) as [->|Hne].
  { by rewrite !optimize_empty. }
  rewrite !optimize_returns by done. fold started. f_equal.
  apply extract_prefix.
  replace (Z.to_nat (3 * Z.of_nat (length d_bounds)))
    with (3 * length d_bounds)%nat by lia.
  done.
Qed.

Lemma problem_data_dimensions_witness :
  sample_bounds ≠ []
  ∧ data_n
      (assemble sample_flags sample_DenseToCSCMatrix
         (CalculateKernel sample_flags sample_DenseToCSCMatrix sample_bounds)
         sample_bounds
         (build_constraints sample_flags sample_state 0.5%float sample_bounds))
    = 9
  ∧ data_m
      (assemble sample_flags sample_DenseToCSCMatrix
         (CalculateKernel sample_flags sample_DenseToCSCMatrix sample_bounds)
         sample_bounds
         (build_constraints sample_flags sample_state 0.5%float sample_bounds))
    = 18.
Proof.
  assert (sample_bounds ≠ []) as Hne by discriminate.
  split; [exact Hne|].
  destruct (problem_data_dimensions sample_flags sample_DenseToCSCMatrix
              sample_state 0.5%float sample_bounds Hne) as (Hn & Hm & _).
  split; [exact Hn|exact Hm].
Defined.

Lemma solution_blocks_witness :
  sample_bounds ≠ []
  ∧ opt_d_ fresh = [] ∧ opt_d_prime_ fresh = [] ∧ opt_d_pprime_ fresh = []
  ∧ ∃ self',
      optimize sample_flags sample_DenseToCSCMatrix sample_osqp_setup
        sample_osqp_solve_ramp fresh sample_state 0.5%float sample_bounds
      = Returned self' true
      ∧ delta_s_ self' = 0.5%float
      ∧ opt_d_ self' = [1.0; 2.0; 3.0]%float
      ∧ opt_d_prime_ self' = [4.0; 5.0; 0.0]%float
      ∧ opt_d_pprime_ self' = [7.0; 8.0; 0.0]%float.
Proof.
  split; [discriminate|]. do 3 (split; [reflexivity|]).
  apply (solution_blocks sample_flags sample_DenseToCSCMatrix
           sample_osqp_setup sample_osqp_solve_ramp fresh sample_state
           0.5%float sample_bounds);
    [discriminate|reflexivity|reflexivity|reflexivity|reflexivity].
Defined.

Lemma earlier_entries_kept_witness :
  sample_bounds ≠ []
  ∧ ∃ self',
      optimize sample_flags sample_DenseToCSCMatrix sample_osqp_setup
        sample_osqp_solve_ramp used sample_state 0.5%float sample_bounds
      = Returned self' true
      ∧ take 3 (opt_d_ self') = [0.5; 0.25; 0.125]%float
      ∧ (∀ k, k ≠ 2%nat → (k < 3)%nat →
           opt_d_prime_ self' !! k = opt_d_prime_ used !! k)
      ∧ (∀ k, k ≠ 2%nat → (k < 3)%nat →
           opt_d_pprime_ self' !! k = opt_d_pprime_ used !! k).
Proof.
  split; [discriminate|].
  apply (earlier_entries_kept sample_flags sample_DenseToCSCMatrix
           sample_osqp_setup sample_osqp_solve_ramp used sample_state
           0.5%float sample_bounds).
  discriminate.
Defined.

Lemma matrices_depend_on_sizes_only_witness :
  length sample_bounds = length sample_bounds_wide
  ∧ kernel sample_flags sample_bounds = kernel sample_flags sample_bounds_wide
  ∧ affine_constraint
      (build_constraints sample_flags sample_state 0.5%float sample_bounds)
    = affine_constraint
        (build_constraints sample_flags sample_state_moving 0.5%float
           sample_bounds_wide).
Proof.
  split; [reflexivity|].
  apply (matrices_depend_on_sizes_only sample_flags sample_state
           sample_state_moving 0.5%float sample_bounds sample_bounds_wide).
  reflexivity.
Defined.

Lemma equality_rows_witness :
  1 ≤ Z.of_nat (length sample_bounds)
  ∧ Z.of_nat (length sample_bounds) - 1 ≤ 7 < 3 * Z.of_nat (length sample_bounds)
  ∧ ∃ v,
      lower_bounds
        (build_constraints sample_flags sample_state_moving 0.5%float
           sample_bounds) !! 7%nat = Some (Some v)
      ∧ upper_bounds
          (build_constraints sample_flags sample_state_moving 0.5%float
             sample_bounds) !! 7%nat = Some (Some v).
Proof.
  split; [simpl; lia|]. split; [simpl; lia|].
  apply (equality_rows sample_flags sample_state_moving 0.5%float
           sample_bounds 7); simpl; lia.
Defined.

Lemma only_primal_prefix_read_witness :
  take (3 * length sample_bounds)
    (solution_x
       (sample_osqp_solve_padded
          (sample_osqp_setup
             (assemble sample_flags sample_DenseToCSCMatrix
                (CalculateKernel sample_flags sample_DenseToCSCMatrix
                   sample_bounds)
                sample_bounds
                (build_constraints sample_flags sample_state 0.5%float
                   sample_bounds))
             (settings sample_flags))))
  = take (3 * length sample_bounds)
      (solution_x
         (sample_osqp_solve
            (sample_osqp_setup
               (assemble sample_flags sample_DenseToCSCMatrix
                  (CalculateKernel sample_flags sample_DenseToCSCMatrix
                     sample_bounds)
                  sample_bounds
                  (build_constraints sample_flags sample_state 0.5%float
                     sample_bounds))
               (settings sample_flags))))
  ∧ optimize sample_flags sample_DenseToCSCMatrix sample_osqp_setup
      sample_osqp_solve_padded fresh sample_state 0.5%float sample_bounds
    = optimize sample_flags sample_DenseToCSCMatrix sample_osqp_setup
        sample_osqp_solve fresh sample_state 0.5%float sample_bounds.
Proof.
  split; [vm_compute; reflexivity|].
  apply (only_primal_prefix_read sample_flags sample_DenseToCSCMatrix
           sample_osqp_setup sample_osqp_solve sample_osqp_solve_padded
           fresh sample_state 0.5%float sample_bounds).
  vm_compute; reflexivity.
Defined.
